(** * RCON server: frame codec, authentication gate, request/reply registry

    A shallow embedding of [RCONServer] (the Deno module of this repository):
    the frame codec [writeMessage] / [readResponse], the handshake and read
    loop of [handleConnection], [closeConnection], [reply] and
    [notifyUnreplied], together with the parts of the runtime they call
    (node's [Buffer], [Deno.Conn], the event emitter, the interval timer).

    Conventions.
    - A JS string is the list of its UTF-16 code units.
    - A [Buffer] is a list of bytes; a 32-bit integer is a [Z] with the
      wrap-around written out.
    - A JS number is an integer, a [Z]: frame ids, types, sizes and offsets
      are integers wherever the server produces them ([generateId],
      [readInt32LE], [MessageType], [byteLength]).  A caller of [reply] or
      [writeMessage] may also pass a fractional id or [NaN]; these values
      are outside the model, and every statement below about an id is a
      statement about an integer id.
    - A JS exception is the [Throw] branch of [result]; server methods run in
      the state-and-exception monad [M] over the server instance and the
      runtime's resource table. *)

From Stdlib Require Import ZArith Lia List.
From Stdlib.Strings Require Import Byte.
From stdpp Require Import base option list gmap.

Local Open Scope Z_scope.

(** ** Exceptions *)

Inductive JsError : Type :=
| ERR_OUT_OF_RANGE          (* RangeError raised by node's Buffer *)
| ERR_NOT_ITERABLE          (* TypeError: undefined is not iterable *)
| ERR_CONNECTION_NOT_FOUND  (* new Error("Connection not found") *)
| ERR_BAD_RESOURCE.         (* Deno.errors.BadResource *)

Inductive result (A : Type) : Type :=
| Ok (a : A)
| Throw (e : JsError).
Arguments Ok {A} a.
Arguments Throw {A} e.

Definition rbind {A B : Type} (r : result A) (k : A -> result B) : result B :=
  match r with
  | Ok a => k a
  | Throw e => Throw e
  end.

Notation "'let*' x ':=' r 'in' k" := (rbind r (fun x => k))
  (at level 10, x name, r at level 100, k at level 200).

(** ** JS strings *)

Abbreviation jsstring := (list Z) (only parsing).

(** The longest string the engine can hold (V8's [String::kMaxLength] on
    64-bit builds, exported by node's buffer module as
    [constants.MAX_STRING_LENGTH]). *)
Definition kStringMaxLength : Z := 536870888.

Definition jsstring_ok (s : jsstring) : Prop :=
  Z.of_nat (length s) <= kStringMaxLength.

Definition isAscii (c : Z) : bool := (0 <=? c) && (c <? 128).
Definition isPrintable (c : Z) : bool := (32 <=? c) && (c <=? 126).

(** ** node's Buffer *)

Abbreviation Buffer := (list byte) (only parsing).

Module Buffer.

(** Storing a number into a [Uint8Array] slot keeps its low 8 bits. *)
Definition byte_of_Z (z : Z) : byte :=
  default x00 (Byte.of_N (Z.to_N (z mod 256))).

Definition Z_of_byte (b : byte) : Z := Z.of_N (Byte.to_N b).

Definition isLeadSurrogate (c : Z) : bool := (0xD800 <=? c) && (c <=? 0xDBFF).
Definition isTrailSurrogate (c : Z) : bool := (0xDC00 <=? c) && (c <=? 0xDFFF).

(** [Buffer.byteLength(string)]: the encoding defaults to UTF-8.  A
    surrogate pair takes four bytes, a lone surrogate is replaced by
    U+FFFD (three bytes). *)
Fixpoint byteLength (s : jsstring) : Z :=
  match s with
  | [] => 0
  | c :: rest =>
      if c <? 0x80 then 1 + byteLength rest
      else if c <? 0x800 then 2 + byteLength rest
      else if isLeadSurrogate c then
        match rest with
        | d :: rest' =>
            if isTrailSurrogate d then 4 + byteLength rest'
            else 3 + byteLength rest
        | [] => 3
        end
      else 3 + byteLength rest
  end.

(** [Buffer.alloc(size)]: zero-filled. *)
Definition alloc (size : Z) : Buffer := replicate (Z.to_nat size) x00.

(** [buf[i]], [undefined] outside the buffer. *)
Definition get (buf : Buffer) (i : Z) : option byte :=
  if i <? 0 then None else buf !! Z.to_nat i.

(** Overwrite [length bytes] slots of [buf] starting at [offset]. *)
Definition blit (buf : Buffer) (offset : Z) (bytes : list byte) : Buffer :=
  take (Z.to_nat offset) buf ++ bytes
    ++ drop (Z.to_nat offset + length bytes) buf.

Definition int32le (value : Z) : list byte :=
  [ byte_of_Z value;
    byte_of_Z (Z.shiftr value 8);
    byte_of_Z (Z.shiftr value 16);
    byte_of_Z (Z.shiftr value 24) ].

Definition int16be (value : Z) : list byte :=
  [ byte_of_Z (Z.shiftr value 8); byte_of_Z value ].

(** [buf.writeInt32LE(value, offset)]: [checkInt] rejects a value outside
    [-2^31, 2^31 - 1] and an offset that leaves less than four bytes.
    [value] ranges over the integers.  The test of [checkInt] is
    [value > max || value < min], so a fractional value inside the range
    and [NaN] are not rejected by node (the bytes stored are those of the
    truncated value, of 0 for [NaN]); such values are not represented
    here. *)
Definition writeInt32LE (buf : Buffer) (value offset : Z) : result Buffer :=
  if (value <? - 0x80000000) || (0x7fffffff <? value) then Throw ERR_OUT_OF_RANGE
  else if (offset <? 0) || (Z.of_nat (length buf) - 4 <? offset) then Throw ERR_OUT_OF_RANGE
  else Ok (blit buf offset (int32le value)).

(** [buf.writeInt16BE(value, offset)]. *)
Definition writeInt16BE (buf : Buffer) (value offset : Z) : result Buffer :=
  if (value <? - 0x8000) || (0x7fff <? value) then Throw ERR_OUT_OF_RANGE
  else if (offset <? 0) || (Z.of_nat (length buf) - 2 <? offset) then Throw ERR_OUT_OF_RANGE
  else Ok (blit buf offset (int16be value)).

(** The "ascii" encoder keeps the low byte of every code unit. *)
Definition asciiToBytes (s : jsstring) : list byte :=
  map (fun c => byte_of_Z (Z.land c 255)) s.

(** [buf.write(string, offset, length, "ascii")]: both [offset] and
    [length] must lie in [0, buf.length]; [length] is then capped by the
    room left after [offset], and at most that many characters are
    stored. *)
Definition write_ascii (buf : Buffer) (s : jsstring) (offset len : Z)
  : result Buffer :=
  let blen := Z.of_nat (length buf) in
  if (offset <? 0) || (blen <? offset) then Throw ERR_OUT_OF_RANGE
  else if (len <? 0) || (blen <? len) then Throw ERR_OUT_OF_RANGE
  else
    let remaining := blen - offset in
    let len := if remaining <? len then remaining else len in
    Ok (blit buf offset (take (Z.to_nat len) (asciiToBytes s))).

(** [x | 0] / the result of [<<]: reduction to a signed 32-bit integer. *)
Definition toInt32 (z : Z) : Z := (z + 2^31) mod 2^32 - 2^31.

(** [buf.readInt32LE(offset)]: throws when the first or the last of the
    four bytes is missing. *)
Definition readInt32LE (buf : Buffer) (offset : Z) : result Z :=
  match get buf offset, get buf (offset + 3) with
  | Some first, Some last =>
      Ok (Z_of_byte first
          + Z_of_byte (default x00 (get buf (offset + 1))) * 2^8
          + Z_of_byte (default x00 (get buf (offset + 2))) * 2^16
          + toInt32 (Z.shiftl (Z_of_byte last) 24))
  | _, _ => Throw ERR_OUT_OF_RANGE
  end.

(** The "ascii" decoder masks every byte to 7 bits. *)
Definition asciiSlice (buf : Buffer) (start end_ : Z) : jsstring :=
  map (fun b => Z.land (Z_of_byte b) 127)
      (take (Z.to_nat (end_ - start)) (drop (Z.to_nat start) buf)).

(** [buf.toString("ascii", start, end)]: [start] below 0 counts as 0, [end]
    beyond the buffer counts as its length, an empty or inverted range
    gives the empty string. *)
Definition toString_ascii (buf : Buffer) (start end_ : Z) : jsstring :=
  let len := Z.of_nat (length buf) in
  let start := if start <=? 0 then 0 else start in
  if len <=? start then []
  else
    let end_ := if len <? end_ then len else end_ in
    if end_ <=? start then [] else asciiSlice buf start end_.

End Buffer.

(** ** Messages *)

(** [enum MessageType]: four names, three numbers. *)
Inductive MessageType : Type :=
| SERVERDATA_RESPONSE_VALUE
| SERVERDATA_EXECCOMMAND
| SERVERDATA_AUTH_RESPONSE
| SERVERDATA_AUTH.

Definition MessageType_value (t : MessageType) : Z :=
  match t with
  | SERVERDATA_RESPONSE_VALUE => 0
  | SERVERDATA_EXECCOMMAND => 2
  | SERVERDATA_AUTH_RESPONSE => 2
  | SERVERDATA_AUTH => 3
  end.
Coercion MessageType_value : MessageType >-> Z.

(** [BaseMessage]: [id] may be [null]; [type] is whatever integer the field
    holds at run time.  (An id that is not an integer is not represented,
    see the conventions.) *)
Record BaseMessage : Type := mkBaseMessage {
  bm_id : option Z;
  bm_type : Z;
  bm_body : jsstring
}.

(** [Message]: a decoded frame. *)
Record Message : Type := mkMessage {
  m_id : Z;
  m_type : Z;
  m_body : jsstring;
  m_size : Z
}.

Section Codec.

(** The 32-bit word [crypto.getRandomValues] stores when it is asked. *)
Variable crypto_getRandomValues : Z.

(** [generateId]: element 0 of a one-slot [Uint32Array] filled at random. *)
Definition generateId : Z := crypto_getRandomValues mod 2^32.

Definition writeMessage (message : BaseMessage) : result Buffer :=
  let bodySize := Buffer.byteLength (bm_body message) in
  let buffer := Buffer.alloc (bodySize + 14) in
  let* buffer := Buffer.writeInt32LE buffer (bodySize + 10) 0 in
  let* buffer :=
    Buffer.writeInt32LE buffer
      (match bm_id message with Some i => i | None => generateId end) 4 in
  let* buffer := Buffer.writeInt32LE buffer (bm_type message) 8 in
  let* buffer := Buffer.write_ascii buffer (bm_body message) 12 (bodySize + 10) in
  let* buffer := Buffer.writeInt16BE buffer 0 (bodySize + 12) in
  Ok buffer.

Definition readResponse (buffer : Buffer) : result Message :=
  let* size := Buffer.readInt32LE buffer 0 in
  let* id := Buffer.readInt32LE buffer 4 in
  let* type := Buffer.readInt32LE buffer 8 in
  let body := Buffer.toString_ascii buffer 12 (size + 2) in
  Ok {| m_id := id; m_type := type; m_body := body; m_size := size |}.

End Codec.

(** ** The runtime: connections, events *)

(** What the runtime holds for one TCP connection: the chunks the peer still
    delivers (one per successful read, end of list = end of stream), the
    buffers written so far, and whether the resource has been closed. *)
Record Transport : Type := mkTransport {
  incoming : list (list byte);
  written : list (list byte);
  closed : bool
}.

Definition transport_take (rest : list (list byte)) (t : Transport) : Transport :=
  {| incoming := rest; written := written t; closed := closed t |}.

Definition transport_write (p : list byte) (t : Transport) : Transport :=
  {| incoming := incoming t; written := written t ++ [p]; closed := closed t |}.

Definition transport_close (t : Transport) : Transport :=
  {| incoming := incoming t; written := written t; closed := true |}.

(** [Deno.Conn]: a handle on the resource [rid]. *)
Record Conn : Type := mkConn { rid : Z }.

(** What the [EventEmitter] base class has been asked to emit. *)
Inductive Event : Type :=
| EvConnection (clientId : Z)
| EvRequest (clientId : Z) (message : Message)
| EvClose (clientId : Z)
| EvUnreplied (clientId : Z) (message : Message).

(** A JS [Map] with number keys: entries in insertion order, [set] on a
    present key keeps its place. *)
Module JsMap.
Section Ops.
Context {V : Type}.

Fixpoint get (k : Z) (m : list (Z * V)) : option V :=
  match m with
  | [] => None
  | (k', v) :: m' => if k' =? k then Some v else get k m'
  end.

Fixpoint set (k : Z) (v : V) (m : list (Z * V)) : list (Z * V) :=
  match m with
  | [] => [(k, v)]
  | (k', v') :: m' => if k' =? k then (k, v) :: m' else (k', v') :: set k v m'
  end.

Fixpoint delete (k : Z) (m : list (Z * V)) : list (Z * V) :=
  match m with
  | [] => []
  | (k', v') :: m' => if k' =? k then m' else (k', v') :: delete k m'
  end.
End Ops.
End JsMap.

(** The [RCONServer] instance together with the runtime's resource table.
    [connections] is only ever probed by key, so it is a finite map;
    [unreplied] is iterated, so it keeps the insertion order of the JS
    [Map]. *)
Record Server : Type := mkServer {
  password : jsstring;
  connections : gmap Z Conn;
  unreplied : list (Z * list Message);
  emitted : list Event;
  resources : gmap Z Transport
}.

Definition set_connections (f : gmap Z Conn -> gmap Z Conn) (s : Server) : Server :=
  {| password := password s; connections := f (connections s);
     unreplied := unreplied s; emitted := emitted s; resources := resources s |}.

Definition set_unreplied
    (f : list (Z * list Message) -> list (Z * list Message)) (s : Server) : Server :=
  {| password := password s; connections := connections s;
     unreplied := f (unreplied s); emitted := emitted s; resources := resources s |}.

Definition set_emitted (f : list Event -> list Event) (s : Server) : Server :=
  {| password := password s; connections := connections s;
     unreplied := unreplied s; emitted := f (emitted s); resources := resources s |}.

Definition set_resources (f : gmap Z Transport -> gmap Z Transport) (s : Server) : Server :=
  {| password := password s; connections := connections s;
     unreplied := unreplied s; emitted := emitted s; resources := f (resources s) |}.

(** ** The monad of server methods *)

Definition M (A : Type) : Type := Server -> result A * Server.

Definition ret {A : Type} (a : A) : M A := fun s => (Ok a, s).
Definition throw {A : Type} (e : JsError) : M A := fun s => (Throw e, s).
Definition lift {A : Type} (r : result A) : M A := fun s => (r, s).
Definition gets {A : Type} (f : Server -> A) : M A := fun s => (Ok (f s), s).
Definition modify (f : Server -> Server) : M unit := fun s => (Ok tt, f s).

Definition bind {A B : Type} (m : M A) (k : A -> M B) : M B :=
  fun s =>
    match m s with
    | (Ok a, s') => k a s'
    | (Throw e, s') => (Throw e, s')
    end.

Definition try_catch {A : Type} (m : M A) (h : JsError -> M A) : M A :=
  fun s =>
    match m s with
    | (Ok a, s') => (Ok a, s')
    | (Throw e, s') => h e s'
    end.

Declare Scope M_scope.
Delimit Scope M_scope with M.
Bind Scope M_scope with M.
Notation "x <- m ;; k" := (bind m (fun x => k))
  (at level 20, m at level 99, k at level 200) : M_scope.
Notation "m ;; k" := (bind m (fun _ => k))
  (at level 100, k at level 200, right associativity) : M_scope.
Local Open Scope M_scope.

(** [for (const x of l) body]. *)
Fixpoint forOf {A : Type} (l : list A) (body : A -> M unit) : M unit :=
  match l with
  | [] => ret tt
  | x :: l' => body x ;; forOf l' body
  end.

(** [this.emit(...)]. *)
Definition emit (e : Event) : M unit :=
  modify (set_emitted (fun l => l ++ [e])).

(** [conn.read(p)]: copies the next chunk (or as much of it as fits) to the
    front of [p]; gives the filled buffer and the byte count, [None] at end
    of stream. *)
Definition conn_read (conn : Conn) (p : list byte) : M (list byte * option nat) :=
  fun s =>
    match resources s !! rid conn with
    | Some t =>
        if closed t then (Throw ERR_BAD_RESOURCE, s)
        else
          match incoming t with
          | [] => (Ok (p, None), s)
          | chunk :: rest =>
              let n := Nat.min (length chunk) (length p) in
              let rest' :=
                if (length p <? length chunk)%nat then drop n chunk :: rest else rest in
              (Ok (take n chunk ++ drop n p, Some n),
               set_resources (<[rid conn := transport_take rest' t]>) s)
          end
    | None => (Throw ERR_BAD_RESOURCE, s)
    end.

(** [conn.write(p)]. *)
Definition conn_write (conn : Conn) (p : list byte) : M nat :=
  fun s =>
    match resources s !! rid conn with
    | Some t =>
        if closed t then (Throw ERR_BAD_RESOURCE, s)
        else
          (Ok (length p), set_resources (<[rid conn := transport_write p t]>) s)
    | None => (Throw ERR_BAD_RESOURCE, s)
    end.

(** [conn.close()]. *)
Definition conn_close (conn : Conn) : M unit :=
  fun s =>
    match resources s !! rid conn with
    | Some t =>
        if closed t then (Throw ERR_BAD_RESOURCE, s)
        else
          (Ok tt, set_resources (<[rid conn := transport_close t]>) s)
    | None => (Throw ERR_BAD_RESOURCE, s)
    end.

(** The receiver a method body sees as [this]. *)
Inductive This : Type :=
| this_server       (* called as [server.method(...)] *)
| this_globalThis.  (* called as a bare function by the timer *)

(** [this.unreplied]: [None] stands for [undefined]. *)
Definition this_unreplied (this : This) (s : Server)
  : option (list (Z * list Message)) :=
  match this with
  | this_server => Some (unreplied s)
  | this_globalThis => None
  end.

Definition DEFAULT_BUFFER_SIZE : Z := 32 * 1024.

Section RCONServer.

Variable crypto_getRandomValues : Z.

Local Abbreviation writeMessage := (writeMessage crypto_getRandomValues).

(** [closeConnection(rid)]. *)
Definition closeConnection (rid : Z) : M unit :=
  conn <- gets (fun s => connections s !! rid) ;;
  match conn with
  | Some conn =>
      conn_close conn ;;
      modify (set_connections (delete rid)) ;;
      emit (EvClose rid) ;;
      modify (set_unreplied (JsMap.delete rid))
  | None => ret tt
  end.

(** [handleConnection], from its start to the registration of the
    connection.  The result tells whether the method goes on to the read
    loop ([true]) or has returned ([false]). *)
Definition handleConnection_auth (conn : Conn) : M bool :=
  pw <- gets password ;;
  let authBuf := Buffer.alloc (4 + 4 + 4 + Buffer.byteLength pw + 2) in
  r <- conn_read conn authBuf ;;
  let authBuf := fst r in
  authMessage <- lift (readResponse authBuf) ;;
  if negb (m_type authMessage =? SERVERDATA_AUTH) then
    (* invalid initial message type *)
    conn_close conn ;;
    ret false
  else
    (* send empty auth response value *)
    b <- lift (writeMessage
                 {| bm_id := Some (m_id authMessage);
                    bm_type := SERVERDATA_RESPONSE_VALUE;
                    bm_body := [] |}) ;;
    conn_write conn b ;;
    if negb (bool_decide (m_body authMessage = pw)) then
      (* invalid password *)
      b <- lift (writeMessage
                   {| bm_id := Some (-1);
                      bm_type := SERVERDATA_AUTH_RESPONSE;
                      bm_body := [] |}) ;;
      conn_write conn b ;;
      conn_close conn ;;
      ret false
    else
      (* valid password, send successful auth response *)
      b <- lift (writeMessage
                   {| bm_id := Some (m_id authMessage);
                      bm_type := SERVERDATA_AUTH_RESPONSE;
                      bm_body := [] |}) ;;
      conn_write conn b ;;
      emit (EvConnection (rid conn)) ;;
      modify (set_connections (<[rid conn := conn]>)) ;;
      modify (set_unreplied (JsMap.set (rid conn) [])) ;;
      ret true.

(** The body of the read loop, for one buffer yielded by
    [iterateReader]. *)
Definition handleConnection_buffer (conn : Conn) (buffer : list byte) : M unit :=
  message <- lift (readResponse buffer) ;;
  if m_type message =? SERVERDATA_EXECCOMMAND then
    emit (EvRequest (rid conn) message) ;;
    modify (fun s =>
      match JsMap.get (rid conn) (unreplied s) with
      | Some messages =>
          set_unreplied (JsMap.set (rid conn) (messages ++ [message])) s
      | None => s
      end)
  else if m_type message =? SERVERDATA_RESPONSE_VALUE then
    (* response from client is an echo *)
    conn_write conn buffer ;;
    ret tt
  else ret tt.

(** [for await (const buffer of iterateReader(conn))]: one scratch buffer
    [b] is refilled by every read.  The result is [false] when the fuel is
    used up before the stream has ended. *)
Fixpoint handleConnection_loop (fuel : nat) (conn : Conn) (b : list byte) : M bool :=
  match fuel with
  | O => ret false
  | S fuel' =>
      r <- conn_read conn b ;;
      match snd r with
      | None => ret true
      | Some n =>
          handleConnection_buffer conn (take n (fst r)) ;;
          handleConnection_loop fuel' conn (fst r)
      end
  end.

Definition handleConnection (fuel : nat) (conn : Conn) : M unit :=
  authenticated <- handleConnection_auth conn ;;
  if authenticated : bool then
    try_catch
      (ended <- handleConnection_loop fuel conn (Buffer.alloc DEFAULT_BUFFER_SIZE) ;;
       if ended : bool then closeConnection (rid conn) else ret tt)
      (fun e =>
         match e with
         | ERR_BAD_RESOURCE => closeConnection (rid conn)
         | _ => ret tt
         end)
  else ret tt.

(** [reply(rid, reqId, body)], for an integer [reqId]. *)
Definition reply (rid : Z) (reqId : Z) (body : jsstring) : M unit :=
  conn <- gets (fun s => connections s !! rid) ;;
  match conn with
  | None => throw ERR_CONNECTION_NOT_FOUND
  | Some conn =>
      message <- lift (writeMessage
                         {| bm_id := Some reqId;
                            bm_type := SERVERDATA_RESPONSE_VALUE;
                            bm_body := body |}) ;;
      conn_write conn message ;;
      (* remove from unreplied *)
      modify (fun s =>
        match JsMap.get rid (unreplied s) with
        | Some unreplied =>
            let filtered := filter (fun m => m_id m <> reqId) unreplied in
            set_unreplied (JsMap.set rid filtered) s
        | None => s
        end)
  end.

(** [notifyUnreplied()], for the receiver it is run with: iterating
    [this.unreplied] raises a [TypeError] when that property is
    [undefined]. *)
Definition notifyUnreplied (this : This) : M unit :=
  entries <- (fun s =>
                match this_unreplied this s with
                | Some entries => (Ok entries, s)
                | None => (Throw ERR_NOT_ITERABLE, s)
                end) ;;
  forOf entries (fun '(rid, messages) =>
    forOf messages (fun message =>
      emit (EvUnreplied rid message))).

(** One firing of [setInterval(this.notifyUnreplied, 60 * 1000)]: the
    timer holds the bare function and calls it with the global object as
    receiver. *)
Definition unrepliedInterval_tick : M unit := notifyUnreplied this_globalThis.

End RCONServer.

(** ** Vocabulary of the statements *)

(** The signed 32-bit range. *)
Definition int32 (z : Z) : Prop := - 2^31 <= z <= 2^31 - 1.

Section SpecLayout.
Import Buffer.

Definition utf8_2 (c : Z) : list byte :=
  [ byte_of_Z (Z.lor 0xC0 (Z.shiftr c 6));
    byte_of_Z (Z.lor 0x80 (Z.land c 0x3F)) ].

Definition utf8_3 (c : Z) : list byte :=
  [ byte_of_Z (Z.lor 0xE0 (Z.shiftr c 12));
    byte_of_Z (Z.lor 0x80 (Z.land (Z.shiftr c 6) 0x3F));
    byte_of_Z (Z.lor 0x80 (Z.land c 0x3F)) ].

Definition utf8_4 (c : Z) : list byte :=
  [ byte_of_Z (Z.lor 0xF0 (Z.shiftr c 18));
    byte_of_Z (Z.lor 0x80 (Z.land (Z.shiftr c 12) 0x3F));
    byte_of_Z (Z.lor 0x80 (Z.land (Z.shiftr c 6) 0x3F));
    byte_of_Z (Z.lor 0x80 (Z.land c 0x3F)) ].

(** The UTF-8 bytes of a string, the ones [byteLength] counts. *)
Fixpoint utf8ToBytes (s : jsstring) : list byte :=
  match s with
  | [] => []
  | c :: rest =>
      if c <? 0x80 then byte_of_Z c :: utf8ToBytes rest
      else if c <? 0x800 then utf8_2 c ++ utf8ToBytes rest
      else if isLeadSurrogate c then
        match rest with
        | d :: rest' =>
            if isTrailSurrogate d
            then utf8_4 (0x10000 + (c - 0xD800) * 0x400 + (d - 0xDC00))
                   ++ utf8ToBytes rest'
            else utf8_3 0xFFFD ++ utf8ToBytes rest
        | [] => utf8_3 0xFFFD
        end
      else utf8_3 (if isTrailSurrogate c then 0xFFFD else c) ++ utf8ToBytes rest
  end.

(** The layout of the specification's words: size, id, type, "the body
    bytes", a two-byte zero terminator, for a given rendering
    [bodyBytes] of the body. *)
Definition spec_layout (id ty : Z) (body : jsstring) (bodyBytes : list byte)
  : list byte :=
  int32le (10 + byteLength body) ++ int32le id ++ int32le ty
    ++ bodyBytes ++ int16be 0.
End SpecLayout.

Section CodecDefs.
Import Buffer.
Variable rnd : Z.

(** The id [writeMessage] stores: [message.id ?? this.generateId()]. *)
Definition message_id (m : BaseMessage) : Z :=
  match bm_id m with Some i => i | None => generateId rnd end.

(** The bytes of a frame as [writeMessage] lays them down. *)
Definition frame (id ty : Z) (body : jsstring) : list byte :=
  int32le (byteLength body + 10) ++ int32le id ++ int32le ty
    ++ asciiToBytes body
    ++ replicate (Z.to_nat (byteLength body) - length body) x00
    ++ [x00; x00].
End CodecDefs.


(** The first frame of a new connection, as [handleConnection] decodes it:
    one read into a zeroed buffer of [4 + 4 + 4 + byteLength(password) + 2]
    bytes. *)
Definition firstFrame (conn : Conn) (s : Server) : result Message :=
  match
    conn_read conn
      (Buffer.alloc (4 + 4 + 4 + Buffer.byteLength (password s) + 2)) s
  with
  | (Ok r, _) => readResponse (fst r)
  | (Throw e, _) => Throw e
  end.

(** A registered connection: what a successful handshake leaves behind and
    [closeConnection] takes away. *)
Definition registered (s : Server) (conn : Conn) : Prop :=
  connections s !! rid conn = Some conn
  /\ is_Some (JsMap.get (rid conn) (unreplied s))
  /\ exists t, resources s !! rid conn = Some t /\ closed t = false.

(** ** A running example *)

Module Example.

(** "secret", "wrong", "status", "ok". *)
Definition secret : jsstring := [115; 101; 99; 114; 101; 116].
Definition wrong : jsstring := [119; 114; 111; 110; 103].
Definition status : jsstring := [115; 116; 97; 116; 117; 115].
Definition ok : jsstring := [111; 107].

Definition client : Conn := {| rid := 7 |}.

(** A server with password "secret" and one accepted, not yet
    authenticated socket whose peer delivers [chunks]. *)
Definition fresh (chunks : list (list byte)) : Server :=
  {| password := secret; connections := ∅; unreplied := []; emitted := [];
     resources := {[ 7 := {| incoming := chunks; written := []; closed := false |} ]} |}.

(** The same server once the client has authenticated and [pending] is
    waiting for replies. *)
Definition serving (pending : list Message) : Server :=
  {| password := secret; connections := {[ 7 := client ]};
     unreplied := [(7, pending)]; emitted := [EvConnection 7];
     resources := {[ 7 := {| incoming := []; written := []; closed := false |} ]} |}.

Definition request (i : Z) : Message :=
  {| m_id := i; m_type := SERVERDATA_EXECCOMMAND; m_body := status; m_size := 16 |}.

End Example.

(** ** Vocabulary of the further properties *)

(** The registry and the unreplied map describe the same connections, and
    the unreplied map has one entry per key. *)
Definition consistent_maps
    (cs : gmap Z Conn) (us : list (Z * list Message)) : Prop :=
  NoDup (map fst us)
  /\ forall r, is_Some (cs !! r) <-> is_Some (JsMap.get r us).

Definition consistent (s : Server) : Prop :=
  consistent_maps (connections s) (unreplied s).

(** A method keeps [P] when [P] holds of the state it leaves, whether it
    returns or throws. *)
Definition keeps {A : Type} (P : Server -> Prop) (m : M A) : Prop :=
  forall s, P s -> P (snd (m s)).

(** The connection stored under a key is the one with that [rid]. *)
Definition keyed_by_rid (s : Server) : Prop :=
  forall r c, connections s !! r = Some c -> rid c = r.

(** Of the chunks the read loop is given, the messages it records as
    requests and the chunks it writes back, in the order of arrival. *)
Fixpoint requests (chunks : list (list byte)) : list Message :=
  match chunks with
  | [] => []
  | chunk :: chunks' =>
      match readResponse chunk with
      | Ok message =>
          if m_type message =? SERVERDATA_EXECCOMMAND
          then message :: requests chunks'
          else requests chunks'
      | Throw _ => requests chunks'
      end
  end.

Fixpoint echoes (chunks : list (list byte)) : list (list byte) :=
  match chunks with
  | [] => []
  | chunk :: chunks' =>
      match readResponse chunk with
      | Ok message =>
          if m_type message =? SERVERDATA_EXECCOMMAND then echoes chunks'
          else if m_type message =? SERVERDATA_RESPONSE_VALUE
          then chunk :: echoes chunks'
          else echoes chunks'
      | Throw _ => echoes chunks'
      end
  end.

(** ** Earlier versions kept in the repository *)

(** [src/index.ts]: the codec is the same; [handleConnection] stops after
    the handshake and keeps no registry. *)
Module Index.
Section Index.
Variable crypto_getRandomValues : Z.

Local Abbreviation writeMessage := (writeMessage crypto_getRandomValues).

Definition handleConnection (conn : Conn) : M unit :=
  pw <- gets password ;;
  let authBuf := Buffer.alloc (4 + 4 + 4 + Buffer.byteLength pw + 2) in
  r <- conn_read conn authBuf ;;
  let authBuf := fst r in
  authMessage <- lift (readResponse authBuf) ;;
  if negb (m_type authMessage =? SERVERDATA_AUTH) then
    (* invalid initial message type *)
    conn_close conn ;;
    ret tt
  else
    (* send empty auth response value *)
    b <- lift (writeMessage
                 {| bm_id := Some (m_id authMessage);
                    bm_type := SERVERDATA_RESPONSE_VALUE;
                    bm_body := [] |}) ;;
    conn_write conn b ;;
    if negb (bool_decide (m_body authMessage = pw)) then
      (* invalid password *)
      b <- lift (writeMessage
                   {| bm_id := Some (-1);
                      bm_type := SERVERDATA_AUTH_RESPONSE;
                      bm_body := [] |}) ;;
      conn_write conn b ;;
      conn_close conn ;;
      ret tt
    else
      (* valid password, send successful auth response *)
      b <- lift (writeMessage
                   {| bm_id := Some (m_id authMessage);
                      bm_type := SERVERDATA_AUTH_RESPONSE;
                      bm_body := [] |}) ;;
      conn_write conn b ;;
      ret tt.

End Index.
End Index.

(** The version with a registry but without the unreplied map:
    [closeConnection] and [reply]. *)
Module Draft.
Section Draft.
Variable crypto_getRandomValues : Z.

Local Abbreviation writeMessage := (writeMessage crypto_getRandomValues).

Definition closeConnection (rid : Z) : M unit :=
  conn <- gets (fun s => connections s !! rid) ;;
  match conn with
  | Some conn =>
      conn_close conn ;;
      modify (set_connections (delete rid)) ;;
      emit (EvClose rid)
  | None => ret tt
  end.

Definition reply (rid : Z) (reqId : Z) (body : jsstring) : M unit :=
  conn <- gets (fun s => connections s !! rid) ;;
  match conn with
  | None => throw ERR_CONNECTION_NOT_FOUND
  | Some conn =>
      message <- lift (writeMessage
                         {| bm_id := Some reqId;
                            bm_type := SERVERDATA_RESPONSE_VALUE;
                            bm_body := body |}) ;;
      conn_write conn message ;;
      ret tt
  end.

End Draft.
End Draft.

(** ** More of the running example *)

Module Session.
Import Example.

(** The server of [Example.serving] while the client's socket still has
    [chunks] to deliver. *)
Definition receiving (chunks : list (list byte)) : Server :=
  {| password := secret; connections := {[ 7 := client ]};
     unreplied := [(7, [])]; emitted := [EvConnection 7];
     resources := {[ 7 := {| incoming := chunks; written := []; closed := false |} ]} |}.

(** The frames a client sends: AUTH with the password, the command
    "status" with id 42, a RESPONSE_VALUE with id 43. *)
Definition login : list byte := frame 5 SERVERDATA_AUTH secret.
Definition command : list byte := frame 42 SERVERDATA_EXECCOMMAND status.
Definition probe : list byte := frame 43 SERVERDATA_RESPONSE_VALUE [].

End Session.

(** * Facts about the runtime model *)

Section BufferFacts.
Import Buffer.

Lemma Z_of_byte_range (b : byte) : 0 <= Z_of_byte b < 256.
Proof. unfold Z_of_byte. pose proof (Byte.to_N_bounded b). lia. Qed.

Lemma Z_of_byte_of_Z (z : Z) : Z_of_byte (byte_of_Z z) = z mod 256.
Proof.
  unfold Z_of_byte, byte_of_Z.
  pose proof (Z.mod_pos_bound z 256 ltac:(lia)) as Hr.
  destruct (Byte.of_N (Z.to_N (z mod 256))) as [b|] eqn:E; simpl.
  - apply Byte.to_of_N in E. rewrite E. lia.
  - apply Byte.of_N_None_iff in E. lia.
Qed.

Lemma byte_of_Z_of_byte (b : byte) : byte_of_Z (Z_of_byte b) = b.
Proof.
  unfold byte_of_Z. pose proof (Z_of_byte_range b).
  rewrite Z.mod_small by lia.
  unfold Z_of_byte. rewrite N2Z.id, Byte.of_to_N. reflexivity.
Qed.

Lemma get_app_r (pre rest : list byte) (off k : Z) :
  off = Z.of_nat (length pre) -> 0 <= k ->
  get (pre ++ rest) (off + k) = rest !! Z.to_nat k.
Proof.
  intros -> Hk. unfold get.
  destruct (Z.ltb_spec (Z.of_nat (length pre) + k) 0); [lia|].
  rewrite lookup_app_r by lia. f_equal. lia.
Qed.

(** Reading four bytes that sit right after [pre]. *)
Lemma readInt32LE_at (pre post : list byte) (b0 b1 b2 b3 : byte) (off : Z) :
  off = Z.of_nat (length pre) ->
  readInt32LE (pre ++ [b0; b1; b2; b3] ++ post) off
  = Ok (Z_of_byte b0 + Z_of_byte b1 * 2^8 + Z_of_byte b2 * 2^16
        + toInt32 (Z.shiftl (Z_of_byte b3) 24)).
Proof.
  intros Hoff. unfold readInt32LE.
  rewrite <- (Z.add_0_r off) at 1.
  rewrite !(get_app_r pre _ off) by (done || lia).
  reflexivity.
Qed.

(** The four bytes of a signed 32-bit integer read back as that integer. *)
Lemma int32le_value (v : Z) :
  int32 v ->
  Z_of_byte (byte_of_Z v)
  + Z_of_byte (byte_of_Z (Z.shiftr v 8)) * 2^8
  + Z_of_byte (byte_of_Z (Z.shiftr v 16)) * 2^16
  + toInt32 (Z.shiftl (Z_of_byte (byte_of_Z (Z.shiftr v 24))) 24) = v.
Proof.
  unfold int32, toInt32. intros Hv.
  rewrite !Z_of_byte_of_Z, !Z.shiftr_div_pow2, Z.shiftl_mul_pow2 by lia.
  change (2^8) with 256. change (2^16) with 65536.
  change (2^24) with 16777216. change (2^31) with 2147483648 in *.
  change (2^32) with 4294967296.
  Z.div_mod_to_equations. lia.
Qed.

Lemma readInt32LE_int32le (pre post : list byte) (v off : Z) :
  int32 v -> off = Z.of_nat (length pre) ->
  readInt32LE (pre ++ int32le v ++ post) off = Ok v.
Proof.
  intros Hv Hoff. unfold int32le.
  rewrite readInt32LE_at by done. f_equal. by apply int32le_value.
Qed.

Lemma toInt32_range (z : Z) : int32 (toInt32 z).
Proof.
  unfold int32, toInt32.
  pose proof (Z.mod_pos_bound (z + 2^31) (2^32) ltac:(lia)). lia.
Qed.

(** Whatever [readInt32LE] returns is a signed 32-bit integer. *)
Lemma readInt32LE_int32 (buf : list byte) (off v : Z) :
  readInt32LE buf off = Ok v -> int32 v.
Proof.
  unfold readInt32LE.
  destruct (get buf off) as [first|]; [|done].
  destruct (get buf (off + 3)) as [last|]; [|done].
  intros [= <-].
  pose proof (Z_of_byte_range first).
  pose proof (Z_of_byte_range (default x00 (get buf (off + 1)))).
  pose proof (Z_of_byte_range (default x00 (get buf (off + 2)))).
  pose proof (Z_of_byte_range last) as Hl.
  unfold int32, toInt32. rewrite Z.shiftl_mul_pow2 by lia.
  change (2^8) with 256. change (2^16) with 65536.
  change (2^24) with 16777216. change (2^31) with 2147483648 in *.
  change (2^32) with 4294967296.
  Z.div_mod_to_equations. lia.
Qed.

(** [readInt32LE] succeeds exactly when the four bytes are there. *)
Lemma readInt32LE_Ok (buf : list byte) (off : Z) :
  0 <= off -> off + 4 <= Z.of_nat (length buf) ->
  exists v, readInt32LE buf off = Ok v.
Proof.
  intros H0 Hlen. unfold readInt32LE, get.
  destruct (Z.ltb_spec off 0); [lia|].
  destruct (Z.ltb_spec (off + 3) 0); [lia|].
  destruct (lookup_lt_is_Some_2 buf (Z.to_nat off) ltac:(lia)) as [a ->].
  destruct (lookup_lt_is_Some_2 buf (Z.to_nat (off + 3)) ltac:(lia)) as [b ->].
  eauto.
Qed.

Lemma readInt32LE_Throw (buf : list byte) (off : Z) :
  0 <= off -> Z.of_nat (length buf) < off + 4 ->
  readInt32LE buf off = Throw ERR_OUT_OF_RANGE.
Proof.
  intros H0 Hlen. unfold readInt32LE, get.
  destruct (Z.ltb_spec off 0); [lia|].
  destruct (Z.ltb_spec (off + 3) 0); [lia|].
  rewrite (lookup_ge_None_2 buf (Z.to_nat (off + 3))) by lia.
  by destruct (buf !! Z.to_nat off).
Qed.

End BufferFacts.

Section ByteLength.
Import Buffer.

Lemma byteLength_bounds_upto (n : nat) (s : jsstring) :
  (length s <= n)%nat ->
  Z.of_nat (length s) <= byteLength s <= 3 * Z.of_nat (length s).
Proof.
  revert s. induction n as [|n IH]; intros [|c rest] Hlen; simpl in *; try lia.
  pose proof (IH rest ltac:(lia)) as Hrest.
  destruct (c <? 128); [lia|].
  destruct (c <? 2048); [lia|].
  destruct (isLeadSurrogate c); [|lia].
  destruct rest as [|d rest']; simpl in *; [lia|].
  destruct (isTrailSurrogate d); [|lia].
  pose proof (IH rest' ltac:(lia)). lia.
Qed.

(** UTF-8 takes between one and three bytes per UTF-16 code unit. *)
Lemma byteLength_bounds (s : jsstring) :
  Z.of_nat (length s) <= byteLength s <= 3 * Z.of_nat (length s).
Proof. by apply (byteLength_bounds_upto (length s)). Qed.

Lemma byteLength_ascii (s : jsstring) :
  Forall (fun c => isAscii c = true) s -> byteLength s = Z.of_nat (length s).
Proof.
  induction 1 as [|c rest Hc _ IH]; [done|].
  unfold isAscii in Hc. simpl.
  destruct (Z.ltb_spec c 128); lia.
Qed.

Lemma isPrintable_isAscii (c : Z) : isPrintable c = true -> isAscii c = true.
Proof. unfold isPrintable, isAscii. lia. Qed.

Lemma ascii_byte_roundtrip (c : Z) :
  isAscii c = true ->
  Z.land (Z_of_byte (byte_of_Z (Z.land c 255))) 127 = c.
Proof.
  unfold isAscii. intros Hc.
  rewrite Z_of_byte_of_Z.
  change 255 with (Z.ones 8). change 127 with (Z.ones 7).
  rewrite !Z.land_ones by lia.
  change (2^8) with 256. change (2^7) with 128.
  Z.div_mod_to_equations. lia.
Qed.

Lemma asciiToBytes_length (s : jsstring) : length (asciiToBytes s) = length s.
Proof. unfold asciiToBytes. by rewrite length_map. Qed.

Lemma asciiSlice_asciiToBytes (s : jsstring) :
  Forall (fun c => isAscii c = true) s ->
  map (fun b => Z.land (Z_of_byte b) 127) (asciiToBytes s) = s.
Proof.
  induction 1 as [|c rest Hc _ IH]; [done|].
  simpl. rewrite ascii_byte_roundtrip by done. by f_equal.
Qed.

End ByteLength.

Section BlitFacts.
Import Buffer.

Lemma blit_middle (pre old post new : list byte) (off : Z) :
  off = Z.of_nat (length pre) -> length old = length new ->
  blit (pre ++ old ++ post) off new = pre ++ new ++ post.
Proof.
  intros -> Hlen. unfold blit. rewrite Nat2Z.id.
  rewrite take_app_length. do 2 f_equal.
  rewrite drop_app_add, <- Hlen. apply drop_app_length.
Qed.

Lemma writeInt32LE_middle (pre old post : list byte) (v off : Z) :
  int32 v -> off = Z.of_nat (length pre) -> length old = 4%nat ->
  writeInt32LE (pre ++ old ++ post) v off = Ok (pre ++ int32le v ++ post).
Proof.
  unfold int32. intros Hv Hoff Hold. unfold writeInt32LE.
  change (2^31) with 2147483648 in Hv.
  destruct (Z.ltb_spec v (- 0x80000000)); [lia|].
  destruct (Z.ltb_spec 0x7fffffff v); [lia|]. simpl.
  rewrite !length_app, Hold.
  destruct (Z.ltb_spec off 0); [lia|].
  destruct (Z.ltb_spec (Z.of_nat (length pre + (4 + length post)) - 4) off); [lia|].
  simpl. by rewrite blit_middle.
Qed.

Lemma writeInt16BE_middle (pre old post : list byte) (off : Z) :
  off = Z.of_nat (length pre) -> length old = 2%nat ->
  writeInt16BE (pre ++ old ++ post) 0 off = Ok (pre ++ [x00; x00] ++ post).
Proof.
  intros Hoff Hold. unfold writeInt16BE. simpl.
  rewrite !length_app, Hold.
  destruct (Z.ltb_spec off 0); [lia|].
  destruct (Z.ltb_spec (Z.of_nat (length pre + (2 + length post)) - 2) off); [lia|].
  simpl. by rewrite blit_middle.
Qed.

Lemma write_ascii_middle (pre old post : list byte) (s : jsstring) (off len : Z) :
  off = Z.of_nat (length pre) -> length old = length s ->
  Z.of_nat (length s) <= len <= Z.of_nat (length (pre ++ old ++ post)) ->
  write_ascii (pre ++ old ++ post) s off len = Ok (pre ++ asciiToBytes s ++ post).
Proof.
  intros Hoff Hold Hlen. unfold write_ascii.
  set (blen := Z.of_nat (length (pre ++ old ++ post))) in *.
  assert (blen = off + Z.of_nat (length s) + Z.of_nat (length post)) as Hb.
  { unfold blen. rewrite !length_app. lia. }
  destruct (Z.ltb_spec off 0); [lia|].
  destruct (Z.ltb_spec blen off); [lia|].
  destruct (Z.ltb_spec len 0); [lia|].
  destruct (Z.ltb_spec blen len); [lia|]. simpl.
  rewrite take_ge.
  - rewrite blit_middle; [done|done|]. by rewrite asciiToBytes_length.
  - rewrite asciiToBytes_length. destruct (Z.ltb_spec (blen - off) len); lia.
Qed.

End BlitFacts.

Section CodecFacts.
Import Buffer.
Variable rnd : Z.

Lemma jsstring_ok_size (body : jsstring) :
  jsstring_ok body -> int32 (byteLength body + 10).
Proof.
  unfold jsstring_ok, kStringMaxLength, int32. intros Hok.
  pose proof (byteLength_bounds body). lia.
Qed.

Lemma writeMessage_frame (m : BaseMessage) :
  int32 (message_id rnd m) -> int32 (bm_type m) -> jsstring_ok (bm_body m) ->
  writeMessage rnd m = Ok (frame (message_id rnd m) (bm_type m) (bm_body m)).
Proof.
  intros Hid Hty Hok. unfold writeMessage, frame.
  fold (message_id rnd m).
  set (body := bm_body m) in *. set (B := byteLength body).
  pose proof (byteLength_bounds body) as HB. fold B in HB.
  pose proof (jsstring_ok_size body Hok) as Hsz. fold B in Hsz.
  set (l := length body) in *.
  set (pad := (Z.to_nat B - l)%nat).
  unfold alloc.
  replace (Z.to_nat (B + 14)) with (4 + (4 + (4 + (l + (pad + 2)))))%nat
    by (unfold pad; lia).
  rewrite !replicate_add.
  match goal with
  | |- context [writeInt32LE (replicate 4 x00 ++ ?R) _ 0] =>
      pose proof (writeInt32LE_middle [] (replicate 4 x00) R (B + 10) 0
                    Hsz eq_refl (length_replicate _ _)) as E
  end.
  cbn [app] in E. rewrite E. clear E. cbn [rbind].
  rewrite (writeInt32LE_middle (int32le (B + 10)) (replicate 4 x00) _ _ 4)
    by (done || by rewrite length_replicate).
  cbn [rbind].
  rewrite (app_assoc (int32le (B + 10))).
  rewrite (writeInt32LE_middle _ (replicate 4 x00) _ _ 8)
    by (done || by rewrite length_replicate).
  cbn [rbind].
  rewrite (app_assoc (int32le (B + 10) ++ _)).
  rewrite (write_ascii_middle _ (replicate l x00) _ body 12 (B + 10)); cycle 1.
  { done. }
  { by rewrite length_replicate. }
  { rewrite !length_app, !length_replicate. fold l. simpl length. lia. }
  cbn [rbind].
  rewrite (app_assoc (asciiToBytes body)), (app_assoc _ (_ ++ _)).
  rewrite <- (app_nil_r (replicate 2 x00)).
  rewrite (writeInt16BE_middle _ (replicate 2 x00) [] (B + 12)); cycle 1.
  { rewrite !length_app, asciiToBytes_length, length_replicate.
    fold l. simpl length. lia. }
  { done. }
  cbn [rbind]. rewrite <- !app_assoc. reflexivity.
Qed.

Lemma frame_length (id ty : Z) (body : jsstring) :
  Z.of_nat (length (frame id ty body)) = 14 + byteLength body.
Proof.
  unfold frame. pose proof (byteLength_bounds body).
  rewrite !length_app, asciiToBytes_length, length_replicate.
  simpl length. lia.
Qed.

(** Decoding a frame whose body is ASCII. *)
Lemma readResponse_frame (id ty : Z) (body : jsstring) :
  int32 id -> int32 ty -> jsstring_ok body ->
  Forall (fun c => isAscii c = true) body ->
  readResponse (frame id ty body)
  = Ok {| m_id := id; m_type := ty; m_body := body;
          m_size := byteLength body + 10 |}.
Proof.
  intros Hid Hty Hok Hascii.
  pose proof (jsstring_ok_size body Hok) as Hsz.
  pose proof (frame_length id ty body) as Hlen.
  rewrite (byteLength_ascii body Hascii) in *.
  unfold readResponse, frame in *.
  rewrite (byteLength_ascii body Hascii) in *.
  rewrite Nat2Z.id, Nat.sub_diag in *. cbn [replicate app] in *.
  set (sz := Z.of_nat (length body) + 10) in *.
  match goal with
  | |- context [readInt32LE (int32le sz ++ ?R) 0] =>
      pose proof (readInt32LE_int32le [] R sz 0 Hsz eq_refl) as E
  end.
  cbn [app] in E. rewrite E. clear E. cbn [rbind].
  rewrite (readInt32LE_int32le (int32le sz) _ id 4) by done. cbn [rbind].
  rewrite (app_assoc (int32le sz)).
  rewrite (readInt32LE_int32le _ _ ty 8) by done. cbn [rbind].
  do 2 f_equal.
  unfold toString_ascii. rewrite <- app_assoc, Hlen.
  unfold sz. cbn [Z.leb Z.compare].
  destruct (Z.leb_spec (14 + Z.of_nat (length body)) 12); [lia|].
  destruct (Z.ltb_spec (14 + Z.of_nat (length body)) (Z.of_nat (length body) + 10 + 2)); [lia|].
  destruct (Z.leb_spec (Z.of_nat (length body) + 10 + 2) 12).
  - destruct body; [done|simpl in *; lia].
  - unfold asciiSlice.
    replace (Z.to_nat (Z.of_nat (length body) + 10 + 2 - 12)) with (length body) by lia.
    change (Z.to_nat 12) with 12%nat. cbn [int32le app drop].
    rewrite drop_0, <- (asciiToBytes_length body), take_app_length.
    by apply asciiSlice_asciiToBytes.
Qed.

Lemma ascii_mask (c : Z) :
  Z.land (Z_of_byte (byte_of_Z (Z.land c 255))) 127 = Z.land c 127.
Proof.
  rewrite Z_of_byte_of_Z.
  change 255 with (Z.ones 8). change 127 with (Z.ones 7).
  rewrite !Z.land_ones by lia.
  change (2^8) with 256. change (2^7) with 128.
  Z.div_mod_to_equations. lia.
Qed.

Lemma asciiSlice_map (bytes : list byte) :
  asciiSlice bytes 0 (Z.of_nat (length bytes))
  = map (fun b => Z.land (Z_of_byte b) 127) bytes.
Proof.
  unfold asciiSlice. rewrite Z.sub_0_r, Nat2Z.id. simpl.
  by rewrite drop_0, firstn_all.
Qed.

Lemma decode_asciiToBytes (body : jsstring) :
  map (fun b => Z.land (Z_of_byte b) 127) (asciiToBytes body)
  = map (fun c => Z.land c 127) body.
Proof.
  unfold asciiToBytes. rewrite map_map. apply map_ext. intros c. apply ascii_mask.
Qed.

Lemma decode_zeros (n : nat) :
  map (fun b => Z.land (Z_of_byte b) 127) (replicate n x00) = replicate n 0.
Proof. induction n as [|n IH]; [done|]. simpl. by rewrite IH. Qed.

(** Decoding any frame [writeMessage] lays down. *)
Lemma readResponse_frame_any (id ty : Z) (body : jsstring) :
  int32 id -> int32 ty -> jsstring_ok body ->
  readResponse (frame id ty body)
  = Ok {| m_id := id; m_type := ty;
          m_body := map (fun c => Z.land c 127) body
                      ++ replicate (Z.to_nat (byteLength body) - length body) 0;
          m_size := byteLength body + 10 |}.
Proof.
  intros Hid Hty Hok.
  pose proof (jsstring_ok_size body Hok) as Hsz.
  pose proof (frame_length id ty body) as Hlen.
  pose proof (byteLength_bounds body) as HB.
  unfold readResponse. unfold frame at 1 2 3.
  set (B := byteLength body) in *.
  set (pad := (Z.to_nat B - length body)%nat).
  match goal with
  | |- context [readInt32LE (int32le (B + 10) ++ ?R) 0] =>
      pose proof (readInt32LE_int32le [] R (B + 10) 0 Hsz eq_refl) as E
  end.
  cbn [app] in E. rewrite E. clear E. cbn [rbind].
  rewrite (readInt32LE_int32le (int32le (B + 10)) _ id 4) by done. cbn [rbind].
  rewrite (app_assoc (int32le (B + 10))).
  rewrite (readInt32LE_int32le _ _ ty 8) by done. cbn [rbind].
  do 2 f_equal.
  unfold toString_ascii. rewrite Hlen. cbn [Z.leb Z.compare].
  destruct (Z.leb_spec (14 + B) 12); [lia|].
  destruct (Z.ltb_spec (14 + B) (B + 10 + 2)); [lia|].
  destruct (Z.leb_spec (B + 10 + 2) 12).
  - assert (length body = 0%nat) as Hnil by lia.
    destruct body; [|done]. subst pad. simpl in *. by replace B with 0 by lia.
  - unfold asciiSlice, frame.
    replace (Z.to_nat (B + 10 + 2 - 12)) with (length body + pad)%nat
      by (unfold pad; lia).
    change (Z.to_nat 12) with 12%nat. cbn [int32le app drop].
    rewrite drop_0, app_assoc.
    rewrite <- (asciiToBytes_length body) at 1.
    rewrite <- (length_replicate pad x00) at 1.
    rewrite <- length_app, take_app_length.
    by rewrite map_app, decode_asciiToBytes, decode_zeros.
Qed.

End CodecFacts.

Section CodecClaims.
Import Buffer.
Variable rnd : Z.

Lemma utf8ToBytes_length_upto (n : nat) (s : jsstring) :
  (length s <= n)%nat -> Z.of_nat (length (utf8ToBytes s)) = byteLength s.
Proof.
  revert s. induction n as [|n IH]; intros [|c rest] Hlen; simpl in *; try lia.
  pose proof (IH rest ltac:(lia)) as Hrest.
  destruct (c <? 128); [simpl; lia|].
  destruct (c <? 2048); [simpl; lia|].
  destruct (isLeadSurrogate c); [|simpl; lia].
  destruct rest as [|d rest']; [done|].
  destruct (isTrailSurrogate d).
  - simpl in *. pose proof (IH rest' ltac:(lia)). lia.
  - cbn [utf8_3 app length]. lia.
Qed.

(** [byteLength] is the length of the UTF-8 rendering. *)
Lemma utf8ToBytes_length (s : jsstring) :
  Z.of_nat (length (utf8ToBytes s)) = byteLength s.
Proof. by apply (utf8ToBytes_length_upto (length s)). Qed.

Lemma MessageType_int32 (t : MessageType) : int32 t.
Proof. unfold int32. destruct t; simpl; lia. Qed.

(** C1. Round trip: for every id in the signed 32-bit range, every message
    kind and every printable-ASCII body, [writeMessage] returns a buffer of
    [14 + byteLength(body)] bytes, and [readResponse] of that buffer is the
    frame with the same id, type and body. *)
Theorem writeMessage_readResponse_roundtrip
    (i : Z) (t : MessageType) (body : jsstring) :
  int32 i ->
  Forall (fun c => isPrintable c = true) body ->
  jsstring_ok body ->
  exists buffer,
    writeMessage rnd {| bm_id := Some i; bm_type := t; bm_body := body |} = Ok buffer
    /\ Z.of_nat (length buffer) = 14 + byteLength body
    /\ readResponse buffer
       = Ok {| m_id := i; m_type := t; m_body := body;
               m_size := byteLength body + 10 |}.
Proof.
  intros Hi Hbody Hok.
  assert (Forall (fun c => isAscii c = true) body) as Hascii.
  { eapply Forall_impl; [exact Hbody|]. apply isPrintable_isAscii. }
  exists (frame i t body). split; [|split].
  - by apply (writeMessage_frame rnd
                {| bm_id := Some i; bm_type := t; bm_body := body |});
      [|apply MessageType_int32|].
  - apply frame_length.
  - apply readResponse_frame; auto using MessageType_int32.
Qed.

(** C6, as amended. For every non-null int32 id, message kind and body,
    [writeMessage] returns [14 + byteLength(body)] bytes: the size field
    [10 + byteLength(body)], the id and the type as little-endian int32,
    then from offset 12 one byte per UTF-16 code unit of the body (its low
    eight bits), then [byteLength(body) - length(body)] zero bytes, then
    two zero bytes.  When the body is ASCII there is no padding and the
    buffer is the layout size, id, type, body bytes, terminator. *)
Theorem writeMessage_layout (i : Z) (t : MessageType) (body : jsstring) :
  int32 i ->
  jsstring_ok body ->
  let pad := (Z.to_nat (byteLength body) - length body)%nat in
  let buffer :=
    int32le (byteLength body + 10) ++ int32le i ++ int32le t
      ++ asciiToBytes body ++ replicate pad x00 ++ [x00; x00] in
  writeMessage rnd {| bm_id := Some i; bm_type := t; bm_body := body |} = Ok buffer
  /\ Z.of_nat (length buffer) = 14 + byteLength body
  /\ Z.of_nat pad = byteLength body - Z.of_nat (length body)
  /\ (Forall (fun c => isAscii c = true) body ->
      buffer = spec_layout i t body (asciiToBytes body)).
Proof.
  intros Hi Hok pad buffer. split; [|split; [|split]].
  - by apply (writeMessage_frame rnd
                {| bm_id := Some i; bm_type := t; bm_body := body |});
      [|apply MessageType_int32|].
  - apply (frame_length i t body).
  - pose proof (byteLength_bounds body). unfold pad. lia.
  - intros Hascii. unfold buffer, pad, spec_layout.
    rewrite (byteLength_ascii body Hascii), Nat2Z.id, Nat.sub_diag.
    by rewrite Z.add_comm.
Qed.

(** C7, as amended. [readResponse] returns a frame for every buffer of at
    least 12 bytes, whatever its size field says, and raises a
    [RangeError] for every shorter buffer. *)
Theorem readResponse_total_from_12 (buffer : list byte) :
  ((12 <= length buffer)%nat -> exists message, readResponse buffer = Ok message)
  /\ ((length buffer < 12)%nat -> readResponse buffer = Throw ERR_OUT_OF_RANGE).
Proof.
  split; intros Hlen; unfold readResponse.
  - destruct (readInt32LE_Ok buffer 0) as [size ->]; [lia..|].
    destruct (readInt32LE_Ok buffer 4) as [id ->]; [lia..|].
    destruct (readInt32LE_Ok buffer 8) as [type ->]; [lia..|].
    simpl. eauto.
  - destruct (Z.lt_ge_cases (Z.of_nat (length buffer)) 4).
    { by rewrite (readInt32LE_Throw buffer 0) by lia. }
    destruct (readInt32LE_Ok buffer 0) as [size ->]; [lia..|]. cbn [rbind].
    destruct (Z.lt_ge_cases (Z.of_nat (length buffer)) 8).
    { by rewrite (readInt32LE_Throw buffer 4) by lia. }
    destruct (readInt32LE_Ok buffer 4) as [id ->]; [lia..|]. cbn [rbind].
    by rewrite (readInt32LE_Throw buffer 8) by lia.
Qed.

(** [writeMessage] with a null id: the generated word is stored when it is
    below [2^31] and rejected by [writeInt32LE] otherwise. *)
Lemma writeMessage_null_id_low (t : MessageType) (body : jsstring) :
  0 <= rnd < 2^31 -> jsstring_ok body ->
  writeMessage rnd {| bm_id := None; bm_type := t; bm_body := body |}
  = Ok (frame rnd t body).
Proof.
  intros Hr Hok.
  pose proof (writeMessage_frame rnd
                {| bm_id := None; bm_type := t; bm_body := body |}) as H.
  unfold message_id, generateId in H. simpl in H.
  rewrite Z.mod_small in H by lia.
  apply H; [unfold int32; lia|apply MessageType_int32|done].
Qed.

(** An id outside the signed range never reaches the buffer. *)
Lemma writeMessage_id_out_of_range (m : BaseMessage) :
  ~ int32 (message_id rnd m) ->
  writeMessage rnd m = Throw ERR_OUT_OF_RANGE.
Proof.
  intros Hid. unfold writeMessage. fold (message_id rnd m).
  destruct (writeInt32LE _ (byteLength (bm_body m) + 10) 0) as [b|e] eqn:E.
  - cbn [rbind]. unfold writeInt32LE at 1.
    unfold int32 in Hid. change (2^31) with 2147483648 in Hid.
    destruct (Z.ltb_spec (message_id rnd m) (- 0x80000000));
      [reflexivity|].
    destruct (Z.ltb_spec 0x7fffffff (message_id rnd m)); [reflexivity|lia].
  - unfold writeInt32LE in E.
    repeat match type of E with
           | (if ?c then _ else _) = _ => destruct c
           end; by inversion E.
Qed.

Lemma writeMessage_null_id_high (ty : Z) (body : jsstring) :
  2^31 <= rnd mod 2^32 ->
  writeMessage rnd {| bm_id := None; bm_type := ty; bm_body := body |}
  = Throw ERR_OUT_OF_RANGE.
Proof.
  intros Hr. apply writeMessage_id_out_of_range.
  unfold message_id, generateId, int32. simpl. lia.
Qed.

End CodecClaims.

(** C1, at id -1, kind AUTH and body "secret". *)
Lemma writeMessage_readResponse_roundtrip_witness :
  exists buffer,
    writeMessage 0 {| bm_id := Some (-1); bm_type := SERVERDATA_AUTH;
                      bm_body := [115; 101; 99; 114; 101; 116] |} = Ok buffer
    /\ Z.of_nat (length buffer) = 14 + Buffer.byteLength [115; 101; 99; 114; 101; 116]
    /\ readResponse buffer
       = Ok {| m_id := -1; m_type := SERVERDATA_AUTH;
               m_body := [115; 101; 99; 114; 101; 116];
               m_size := Buffer.byteLength [115; 101; 99; 114; 101; 116] + 10 |}.
Proof.
  apply (writeMessage_readResponse_roundtrip 0 (-1) SERVERDATA_AUTH
           [115; 101; 99; 114; 101; 116]).
  - unfold int32. lia.
  - repeat constructor.
  - unfold jsstring_ok, kStringMaxLength. simpl. lia.
Defined.

(** C6, as stated, fails for the one-character body "é" (U+00E9), whose
    [byteLength] is 2: the buffer is neither the layout built on the body's
    UTF-8 bytes nor the one built on its single-byte rendering. *)
Lemma writeMessage_layout_counterexample :
  ~ exists bodyBytes,
      (bodyBytes = utf8ToBytes [233] \/ bodyBytes = Buffer.asciiToBytes [233])
      /\ writeMessage 0 {| bm_id := Some 42;
                           bm_type := SERVERDATA_RESPONSE_VALUE;
                           bm_body := [233] |}
         = Ok (spec_layout 42 SERVERDATA_RESPONSE_VALUE [233] bodyBytes).
Proof.
  intros [bodyBytes [[-> | ->] H]]; vm_compute in H; discriminate H.
Qed.

(** C6 as amended, at id 42, kind RESPONSE_VALUE and body "é". *)
Lemma writeMessage_layout_witness :
  writeMessage 0 {| bm_id := Some 42; bm_type := SERVERDATA_RESPONSE_VALUE;
                    bm_body := [233] |}
  = Ok [x0c; x00; x00; x00; x2a; x00; x00; x00; x00; x00; x00; x00;
        xe9; x00; x00; x00].
Proof.
  refine (proj1 (writeMessage_layout 0 42 SERVERDATA_RESPONSE_VALUE [233] _ _)).
  - unfold int32. lia.
  - unfold jsstring_ok, kStringMaxLength. simpl. lia.
Defined.

(** C7, as stated, fails on a buffer of eleven zero bytes. *)
Lemma readResponse_short_buffer_counterexample :
  ~ exists message, readResponse (replicate 11 x00) = Ok message.
Proof. intros [message H]. vm_compute in H. discriminate H. Qed.

(** C7 as amended, on twelve bytes whose size field claims 255 and on the
    empty buffer. *)
Lemma readResponse_total_from_12_witness :
  (exists message,
     readResponse [xff; x00; x00; x00; x01; x00; x00; x00; x03; x00; x00; x00]
     = Ok message)
  /\ readResponse [] = Throw ERR_OUT_OF_RANGE.
Proof.
  split.
  - apply (proj1 (readResponse_total_from_12
                    [xff; x00; x00; x00; x01; x00; x00; x00; x03; x00; x00; x00])).
    simpl. lia.
  - apply (proj2 (readResponse_total_from_12 [])). simpl. lia.
Defined.

(** C8. With a null id and the generated word 2147483648 (the least one
    above the signed range), [writeMessage] raises a [RangeError] and returns
    no frame. *)
Theorem writeMessage_null_id_out_of_range :
  generateId 2147483648 = 2147483648
  /\ writeMessage 2147483648
       {| bm_id := None; bm_type := SERVERDATA_RESPONSE_VALUE; bm_body := [] |}
     = Throw ERR_OUT_OF_RANGE.
Proof. split; reflexivity. Qed.

Section JsMapFacts.
Context {V : Type}.

Lemma JsMap_get_set_eq (k : Z) (v : V) (m : list (Z * V)) :
  JsMap.get k (JsMap.set k v m) = Some v.
Proof.
  induction m as [|[k' v'] m IH]; simpl.
  - by rewrite Z.eqb_refl.
  - destruct (Z.eqb_spec k' k) as [->|Hne]; simpl.
    + by rewrite Z.eqb_refl.
    + by destruct (Z.eqb_spec k' k).
Qed.

Lemma JsMap_get_set_ne (k k' : Z) (v : V) (m : list (Z * V)) :
  k <> k' -> JsMap.get k' (JsMap.set k v m) = JsMap.get k' m.
Proof.
  intros Hne. induction m as [|[k0 v0] m IH]; simpl.
  - by destruct (Z.eqb_spec k k').
  - destruct (Z.eqb_spec k0 k) as [->|Hne0]; simpl.
    + by destruct (Z.eqb_spec k k').
    + by rewrite IH.
Qed.

(** Storing the value a key already has changes nothing, not even the
    order of the entries. *)
Lemma JsMap_set_same (k : Z) (v : V) (m : list (Z * V)) :
  JsMap.get k m = Some v -> JsMap.set k v m = m.
Proof.
  induction m as [|[k' v'] m IH]; simpl; [done|].
  destruct (Z.eqb_spec k' k) as [->|Hne].
  - by intros [= ->].
  - intros H. by rewrite IH.
Qed.
End JsMapFacts.

Section FilterFacts.

Lemma filter_unmatched_id (reqId : Z) (messages : list Message) :
  Forall (fun m => m_id m <> reqId) messages ->
  filter (fun m => m_id m <> reqId) messages = messages.
Proof.
  induction 1 as [|m l Hm _ IH]; [done|].
  rewrite filter_cons_True by done. by rewrite IH.
Qed.

Lemma filter_removes_id (reqId : Z) (messages : list Message) :
  Forall (fun m => m_id m <> reqId) (filter (fun m => m_id m <> reqId) messages).
Proof.
  apply Forall_forall. intros m Hin.
  by apply list_elem_of_filter in Hin as [Hm _].
Qed.

End FilterFacts.

Section ConnFacts.

Lemma set_resources_insert_id (s : Server) (r : Z) (t : Transport) :
  resources s !! r = Some t -> set_resources (<[r := t]>) s = s.
Proof.
  intros H. destruct s as [pw cs us es rs]. unfold set_resources. simpl in *.
  by rewrite insert_id.
Qed.

Lemma conn_read_Ok (conn : Conn) (p : list byte) (s s1 : Server)
    (r : list byte * option nat) :
  conn_read conn p s = (Ok r, s1) ->
  exists t t1,
    resources s !! rid conn = Some t /\ closed t = false
    /\ closed t1 = false /\ written t1 = written t
    /\ s1 = set_resources (<[rid conn := t1]>) s
    /\ length (fst r) = length p.
Proof.
  unfold conn_read. intros H.
  destruct (resources s !! rid conn) as [t|] eqn:Ht; [|done].
  destruct (closed t) eqn:Hc; [done|].
  destruct (incoming t) as [|chunk rest] eqn:Hi.
  - inversion H; subst. exists t, t.
    by rewrite set_resources_insert_id.
  - inversion H; subst. clear H.
    eexists t, (transport_take _ t).
    repeat split; try done. simpl.
    rewrite length_app, length_take, length_drop. lia.
Qed.

Lemma conn_write_open (conn : Conn) (p : list byte) (s : Server) (t : Transport) :
  resources s !! rid conn = Some t -> closed t = false ->
  conn_write conn p s
  = (Ok (length p), set_resources (<[rid conn := transport_write p t]>) s).
Proof. intros H1 H2. unfold conn_write. by rewrite H1, H2. Qed.

Lemma conn_close_open (conn : Conn) (s : Server) (t : Transport) :
  resources s !! rid conn = Some t -> closed t = false ->
  conn_close conn s
  = (Ok tt, set_resources (<[rid conn := transport_close t]>) s).
Proof. intros H1 H2. unfold conn_close. by rewrite H1, H2. Qed.

Lemma resources_set_resources_insert (s : Server) (r : Z) (t : Transport) :
  resources (set_resources (<[r := t]>) s) !! r = Some t.
Proof. simpl. apply lookup_insert_eq. Qed.

End ConnFacts.

Section ServerFacts.
Variable rnd : Z.

Lemma bind_Ok {A B : Type} (m : M A) (k : A -> M B) (s s' : Server) (a : A) :
  m s = (Ok a, s') -> bind m k s = k a s'.
Proof. intros H. unfold bind. by rewrite H. Qed.

Lemma bind_Throw {A B : Type} (m : M A) (k : A -> M B) (s s' : Server) (e : JsError) :
  m s = (Throw e, s') -> bind m k s = (Throw e, s').
Proof. intros H. unfold bind. by rewrite H. Qed.

(** [reply] on a registered connection: one frame goes out, the requests
    with the replied id are filtered away. *)
Lemma reply_registered (conn : Conn) (s : Server) (reqId : Z) (body : jsstring)
    (pending : list Message) (t : Transport) :
  connections s !! rid conn = Some conn ->
  JsMap.get (rid conn) (unreplied s) = Some pending ->
  resources s !! rid conn = Some t -> closed t = false ->
  int32 reqId -> jsstring_ok body ->
  reply rnd (rid conn) reqId body s
  = (Ok tt,
     set_unreplied
       (JsMap.set (rid conn) (filter (fun m => m_id m <> reqId) pending))
       (set_resources
          (<[rid conn :=
               transport_write (frame reqId SERVERDATA_RESPONSE_VALUE body) t]>) s)).
Proof.
  intros Hconn Hpending Ht Hopen Hid Hok. unfold reply.
  erewrite bind_Ok by (unfold gets; reflexivity). rewrite Hconn.
  erewrite bind_Ok; cycle 1.
  { unfold lift.
    rewrite (writeMessage_frame rnd
               {| bm_id := Some reqId; bm_type := SERVERDATA_RESPONSE_VALUE;
                  bm_body := body |}); [reflexivity|done| |done].
    apply (MessageType_int32 SERVERDATA_RESPONSE_VALUE). }
  erewrite bind_Ok by (by apply conn_write_open).
  unfold modify. cbn [unreplied set_resources message_id bm_id bm_type bm_body].
  by rewrite Hpending.
Qed.

(** [reply] with an id outside the signed 32-bit range: [writeMessage]
    raises before anything is written. *)
Lemma reply_reqId_out_of_range (conn : Conn) (s : Server) (reqId : Z)
    (body : jsstring) :
  connections s !! rid conn = Some conn ->
  ~ int32 reqId ->
  reply rnd (rid conn) reqId body s = (Throw ERR_OUT_OF_RANGE, s).
Proof.
  intros Hconn Hid. unfold reply.
  erewrite bind_Ok by (unfold gets; reflexivity). rewrite Hconn.
  erewrite bind_Throw; [reflexivity|].
  unfold lift. by rewrite writeMessage_id_out_of_range.
Qed.

(** The read loop on an EXECCOMMAND frame: a "request" event, and the
    message joins the connection's unreplied list. *)
Lemma handleConnection_buffer_request (conn : Conn) (s : Server)
    (buffer : list byte) (message : Message) (pending : list Message) :
  readResponse buffer = Ok message ->
  m_type message = SERVERDATA_EXECCOMMAND ->
  JsMap.get (rid conn) (unreplied s) = Some pending ->
  handleConnection_buffer conn buffer s
  = (Ok tt,
     set_unreplied (JsMap.set (rid conn) (pending ++ [message]))
       (set_emitted (fun l => l ++ [EvRequest (rid conn) message]) s)).
Proof.
  intros Hread Hty Hpending. unfold handleConnection_buffer.
  erewrite bind_Ok by (unfold lift; by rewrite Hread).
  rewrite Hty. cbn [MessageType_value Z.eqb Pos.eqb].
  erewrite bind_Ok by (unfold emit, modify; reflexivity).
  unfold modify. cbn [unreplied set_emitted]. by rewrite Hpending.
Qed.

Lemma set_emitted_app (l1 l2 : list Event) (s : Server) :
  set_emitted (fun l => l ++ l2) (set_emitted (fun l => l ++ l1) s)
  = set_emitted (fun l => l ++ l1 ++ l2) s.
Proof. unfold set_emitted. simpl. by rewrite <- app_assoc. Qed.

Lemma forOf_emit_messages (rid : Z) (messages : list Message) (s : Server) :
  forOf messages (fun message => emit (EvUnreplied rid message)) s
  = (Ok tt, set_emitted (fun l => l ++ map (EvUnreplied rid) messages) s).
Proof.
  revert s. induction messages as [|m messages IH]; intros s; simpl.
  - unfold ret, set_emitted. destruct s; simpl. by rewrite app_nil_r.
  - erewrite bind_Ok by (unfold emit, modify; reflexivity).
    by rewrite IH, set_emitted_app.
Qed.

Lemma forOf_emit_entries (entries : list (Z * list Message)) (s : Server) :
  forOf entries (fun '(rid, messages) =>
    forOf messages (fun message => emit (EvUnreplied rid message))) s
  = (Ok tt,
     set_emitted
       (fun l =>
          l ++ flat_map
                 (fun '(rid, messages) => map (EvUnreplied rid) messages)
                 entries) s).
Proof.
  revert s. induction entries as [|[rid messages] entries IH]; intros s; simpl.
  - unfold ret, set_emitted. destruct s; simpl. by rewrite app_nil_r.
  - erewrite bind_Ok by apply forOf_emit_messages.
    by rewrite IH, set_emitted_app.
Qed.

(** [notifyUnreplied] called on the server object: one "unreplied" event
    per pending request, in the order of the map and of each list, and
    nothing else changes. *)
Lemma notifyUnreplied_on_server (s : Server) :
  notifyUnreplied this_server s
  = (Ok tt,
     set_emitted
       (fun l =>
          l ++ flat_map
                 (fun '(rid, messages) => map (EvUnreplied rid) messages)
                 (unreplied s)) s).
Proof.
  unfold notifyUnreplied. erewrite bind_Ok by reflexivity.
  apply forOf_emit_entries.
Qed.

Lemma notifyUnreplied_on_server_frame (s s' : Server) :
  notifyUnreplied this_server s = (Ok tt, s') ->
  unreplied s' = unreplied s /\ connections s' = connections s
  /\ resources s' = resources s /\ password s' = password s.
Proof. rewrite notifyUnreplied_on_server. by intros [= <-]. Qed.

(** C3. On a registered connection, once an EXEC_COMMAND frame with id [i]
    (42 in the specification's example) has been read, the connection's
    unreplied list holds that request; after [reply(rid, i, body)] the list
    holds no request with id [i], and exactly one buffer has been added to
    what was written on the transport.  That buffer is the RESPONSE_VALUE
    frame with id [i] and the given body: byte for byte the size
    [byteLength body + 10], the id [i] and the type 0 as little-endian
    32-bit integers, the low byte of each character of the body, one NUL
    byte per byte that UTF-8 needs beyond one per character, and two NUL
    bytes; [readResponse] decodes it to id [i], type RESPONSE_VALUE and the
    body masked to 7 bits (the body itself when it is ASCII). *)
Theorem request_reply_correlation (conn : Conn) (s : Server)
    (buffer : list byte) (message : Message) (body : jsstring) :
  registered s conn ->
  readResponse buffer = Ok message ->
  m_type message = SERVERDATA_EXECCOMMAND ->
  jsstring_ok body ->
  exists s1 pending1 t1 response s2 pending2 t2,
    handleConnection_buffer conn buffer s = (Ok tt, s1)
    /\ JsMap.get (rid conn) (unreplied s1) = Some pending1
    /\ message ∈ pending1
    /\ resources s1 !! rid conn = Some t1
    /\ writeMessage rnd {| bm_id := Some (m_id message);
                           bm_type := SERVERDATA_RESPONSE_VALUE;
                           bm_body := body |} = Ok response
    /\ response
       = Buffer.int32le (Buffer.byteLength body + 10)
           ++ Buffer.int32le (m_id message)
           ++ Buffer.int32le 0
           ++ Buffer.asciiToBytes body
           ++ replicate (Z.to_nat (Buffer.byteLength body) - length body) x00
           ++ [x00; x00]
    /\ readResponse response
       = Ok {| m_id := m_id message;
               m_type := SERVERDATA_RESPONSE_VALUE;
               m_body :=
                 map (fun c => Z.land c 127) body
                   ++ replicate (Z.to_nat (Buffer.byteLength body) - length body) 0;
               m_size := Buffer.byteLength body + 10 |}
    /\ (Forall (fun c => isAscii c = true) body ->
        readResponse response
        = Ok {| m_id := m_id message;
                m_type := SERVERDATA_RESPONSE_VALUE;
                m_body := body;
                m_size := Z.of_nat (length body) + 10 |})
    /\ reply rnd (rid conn) (m_id message) body s1 = (Ok tt, s2)
    /\ JsMap.get (rid conn) (unreplied s2) = Some pending2
    /\ Forall (fun m => m_id m <> m_id message) pending2
    /\ resources s2 !! rid conn = Some t2
    /\ written t2 = written t1 ++ [response]
    /\ closed t2 = false.
Proof.
  intros (Hconn & [pending Hpending] & t & Ht & Hopen) Hread Hty Hok.
  assert (int32 (m_id message)) as Hid.
  { unfold readResponse in Hread.
    destruct (Buffer.readInt32LE buffer 0); [|done].
    destruct (Buffer.readInt32LE buffer 4) eqn:E; [|done].
    destruct (Buffer.readInt32LE buffer 8); [|done].
    injection Hread as <-. simpl. by eapply readInt32LE_int32. }
  pose proof (MessageType_int32 SERVERDATA_RESPONSE_VALUE) as Hrv.
  eexists _, (pending ++ [message]), t,
    (frame (m_id message) SERVERDATA_RESPONSE_VALUE body), _, _, _.
  split; [by apply handleConnection_buffer_request|].
  split; [simpl; apply JsMap_get_set_eq|].
  split; [apply elem_of_app; right; apply list_elem_of_singleton; done|].
  split; [exact Ht|].
  split.
  { by apply (writeMessage_frame rnd
                {| bm_id := Some (m_id message);
                   bm_type := SERVERDATA_RESPONSE_VALUE; bm_body := body |}). }
  split; [reflexivity|].
  split; [by apply readResponse_frame_any|].
  split.
  { intros Hascii. rewrite <- (byteLength_ascii body Hascii).
    by apply readResponse_frame. }
  split.
  { apply reply_registered with (t := t); try done.
    simpl. apply JsMap_get_set_eq. }
  split; [simpl; apply JsMap_get_set_eq|].
  split; [apply filter_removes_id|].
  split; [simpl; apply lookup_insert_eq|].
  done.
Qed.

(** C5. [reply] with a connection id that is not in the registry fails
    with "Connection not found" and leaves the whole state as it was:
    nothing is written to any transport, the registry and every unreplied
    list are unchanged. *)
Theorem reply_connection_not_found (s : Server) (rid reqId : Z) (body : jsstring) :
  connections s !! rid = None ->
  reply rnd rid reqId body s = (Throw ERR_CONNECTION_NOT_FOUND, s).
Proof.
  intros Hnone. unfold reply.
  erewrite bind_Ok by (unfold gets; reflexivity).
  by rewrite Hnone.
Qed.

(** C9. A firing of the interval timer runs [notifyUnreplied] with the
    global object as its receiver: it raises a [TypeError] before any
    event is emitted, whatever requests are pending. *)
Theorem unrepliedInterval_tick_throws (s : Server) :
  unrepliedInterval_tick s = (Throw ERR_NOT_ITERABLE, s).
Proof. reflexivity. Qed.

(** C10, as amended. On a registered connection, for every integer
    request id: when the id is in the signed 32-bit range, [reply]
    succeeds and adds exactly one buffer to what was written on the
    transport, the RESPONSE_VALUE frame with that id and body (byte for
    byte the size [byteLength body + 10], the id and the type 0 as
    little-endian 32-bit integers, the low byte of each character of the
    body, the NUL padding and two NUL bytes, which [readResponse] decodes
    to that id, type RESPONSE_VALUE and the body masked to 7 bits); the
    connection's unreplied list becomes the old one without the requests of
    that id - every one of them when several share it - and the unreplied
    map is unchanged when no request has that id.  When the id is outside
    the signed 32-bit range, [reply] raises a [RangeError] and the state,
    transports included, is as it was. *)
Theorem reply_unmatched_or_shared_id (conn : Conn) (s : Server)
    (reqId : Z) (body : jsstring) (pending : list Message) :
  registered s conn ->
  JsMap.get (rid conn) (unreplied s) = Some pending ->
  jsstring_ok body ->
  (int32 reqId ->
   exists response t s' t',
     writeMessage rnd {| bm_id := Some reqId;
                         bm_type := SERVERDATA_RESPONSE_VALUE;
                         bm_body := body |} = Ok response
     /\ response
        = Buffer.int32le (Buffer.byteLength body + 10)
            ++ Buffer.int32le reqId
            ++ Buffer.int32le 0
            ++ Buffer.asciiToBytes body
            ++ replicate (Z.to_nat (Buffer.byteLength body) - length body) x00
            ++ [x00; x00]
     /\ readResponse response
        = Ok {| m_id := reqId;
                m_type := SERVERDATA_RESPONSE_VALUE;
                m_body :=
                  map (fun c => Z.land c 127) body
                    ++ replicate (Z.to_nat (Buffer.byteLength body) - length body) 0;
                m_size := Buffer.byteLength body + 10 |}
     /\ (Forall (fun c => isAscii c = true) body ->
         readResponse response
         = Ok {| m_id := reqId;
                 m_type := SERVERDATA_RESPONSE_VALUE;
                 m_body := body;
                 m_size := Z.of_nat (length body) + 10 |})
     /\ reply rnd (rid conn) reqId body s = (Ok tt, s')
     /\ resources s !! rid conn = Some t
     /\ resources s' !! rid conn = Some t'
     /\ written t' = written t ++ [response]
     /\ closed t' = false
     /\ (forall other, other <> rid conn -> resources s' !! other = resources s !! other)
     /\ JsMap.get (rid conn) (unreplied s')
        = Some (filter (fun m => m_id m <> reqId) pending)
     /\ Forall (fun m => m_id m <> reqId) (filter (fun m => m_id m <> reqId) pending)
     /\ (Forall (fun m => m_id m <> reqId) pending -> unreplied s' = unreplied s)
     /\ connections s' = connections s
     /\ emitted s' = emitted s)
  /\ (~ int32 reqId ->
      reply rnd (rid conn) reqId body s = (Throw ERR_OUT_OF_RANGE, s)).
Proof.
  intros (Hconn & _ & t & Ht & Hopen) Hpending Hok.
  split; [|by apply reply_reqId_out_of_range].
  intros Hid.
  pose proof (MessageType_int32 SERVERDATA_RESPONSE_VALUE) as Hrv.
  eexists (frame reqId SERVERDATA_RESPONSE_VALUE body), t, _, _.
  split.
  { by apply (writeMessage_frame rnd
                {| bm_id := Some reqId;
                   bm_type := SERVERDATA_RESPONSE_VALUE; bm_body := body |}). }
  split; [reflexivity|].
  split; [by apply readResponse_frame_any|].
  split.
  { intros Hascii. rewrite <- (byteLength_ascii body Hascii).
    by apply readResponse_frame. }
  split; [by apply reply_registered with (t := t)|].
  split; [done|].
  split; [simpl; apply lookup_insert_eq|].
  split; [done|].
  split; [done|].
  split; [intros other Hother; simpl; by apply lookup_insert_ne|].
  split; [simpl; apply JsMap_get_set_eq|].
  split; [apply filter_removes_id|].
  split; [|done].
  intros Hnone. simpl. rewrite filter_unmatched_id by done.
  by apply JsMap_set_same.
Qed.

End ServerFacts.

Section AuthGate.
Variable rnd : Z.

Lemma readResponse_int32 (buffer : list byte) (message : Message) :
  readResponse buffer = Ok message ->
  int32 (m_id message) /\ int32 (m_type message) /\ int32 (m_size message).
Proof.
  unfold readResponse. intros H.
  destruct (Buffer.readInt32LE buffer 0) eqn:E0; [|done].
  destruct (Buffer.readInt32LE buffer 4) eqn:E4; [|done].
  destruct (Buffer.readInt32LE buffer 8) eqn:E8; [|done].
  injection H as <-. simpl.
  repeat split; eapply readInt32LE_int32; eassumption.
Qed.

(** An empty-body frame and what it decodes to. *)
Lemma writeMessage_empty (i : Z) (t : MessageType) :
  int32 i ->
  writeMessage rnd {| bm_id := Some i; bm_type := t; bm_body := [] |}
  = Ok (frame i t [])
  /\ readResponse (frame i t [])
     = Ok {| m_id := i; m_type := t; m_body := []; m_size := 10 |}.
Proof.
  intros Hi.
  assert (jsstring_ok []) as Hok by (unfold jsstring_ok, kStringMaxLength; simpl; lia).
  split.
  - by apply (writeMessage_frame rnd
                {| bm_id := Some i; bm_type := t; bm_body := [] |});
      [|apply MessageType_int32|].
  - apply (readResponse_frame i t []); auto using MessageType_int32.
Qed.

Ltac auth_start Hread Hmsg :=
  erewrite bind_Ok by (unfold gets; reflexivity); cbv beta zeta;
  erewrite bind_Ok by exact Hread; cbv beta zeta;
  erewrite bind_Ok by (unfold lift; by rewrite Hmsg); cbv beta zeta.

Section Branches.
Variables (conn : Conn) (s s1 : Server) (r : list byte * option nat).
Variables (msg : Message) (t1 : Transport).
Hypothesis Hread :
  conn_read conn
    (Buffer.alloc (4 + 4 + 4 + Buffer.byteLength (password s) + 2)) s
  = (Ok r, s1).
Hypothesis Hmsg : readResponse (fst r) = Ok msg.
Hypothesis Hs1 : s1 = set_resources (<[rid conn := t1]>) s.
Hypothesis Hopen1 : closed t1 = false.

Lemma handleConnection_auth_wrong_type :
  m_type msg <> SERVERDATA_AUTH ->
  handleConnection_auth rnd conn s
  = (Ok false, set_resources (<[rid conn := transport_close t1]>) s1).
Proof.
  intros Hty. unfold handleConnection_auth.
  auth_start Hread Hmsg.
  apply Z.eqb_neq in Hty. rewrite Hty. cbn [negb].
  erewrite bind_Ok; [reflexivity|].
  apply conn_close_open; [|done].
  rewrite Hs1. apply resources_set_resources_insert.
Qed.

Lemma handleConnection_auth_wrong_password :
  m_type msg = SERVERDATA_AUTH ->
  m_body msg <> password s ->
  handleConnection_auth rnd conn s
  = (Ok false,
     set_resources
       (<[rid conn :=
            transport_close
              (transport_write (frame (-1) SERVERDATA_AUTH_RESPONSE [])
                 (transport_write
                    (frame (m_id msg) SERVERDATA_RESPONSE_VALUE []) t1))]>)
       (set_resources
          (<[rid conn :=
               transport_write (frame (-1) SERVERDATA_AUTH_RESPONSE [])
                 (transport_write
                    (frame (m_id msg) SERVERDATA_RESPONSE_VALUE []) t1)]>)
          (set_resources
             (<[rid conn :=
                  transport_write
                    (frame (m_id msg) SERVERDATA_RESPONSE_VALUE []) t1]>)
             s1))).
Proof.
  intros Hty Hbody. unfold handleConnection_auth.
  auth_start Hread Hmsg.
  rewrite Hty, Z.eqb_refl. cbn [negb].
  destruct (readResponse_int32 _ _ Hmsg) as (Hid & _ & _).
  erewrite bind_Ok
    by (unfold lift; by rewrite (proj1 (writeMessage_empty _ _ Hid))).
  erewrite bind_Ok
    by (apply conn_write_open with (t := t1);
        [rewrite Hs1; apply resources_set_resources_insert|done]).
  cbv beta.
  rewrite bool_decide_eq_false_2 by done. cbn [negb].
  assert (int32 (-1)) as Hm1 by (unfold int32; lia).
  erewrite bind_Ok
    by (unfold lift; by rewrite (proj1 (writeMessage_empty _ _ Hm1))).
  erewrite bind_Ok
    by (eapply conn_write_open; [apply resources_set_resources_insert|done]).
  erewrite bind_Ok; [reflexivity|].
  eapply conn_close_open; [apply resources_set_resources_insert|done].
Qed.

Lemma handleConnection_auth_right_password :
  m_type msg = SERVERDATA_AUTH ->
  m_body msg = password s ->
  handleConnection_auth rnd conn s
  = (Ok true,
     set_unreplied (JsMap.set (rid conn) [])
       (set_connections (<[rid conn := conn]>)
          (set_emitted (fun l => l ++ [EvConnection (rid conn)])
             (set_resources
                (<[rid conn :=
                     transport_write
                       (frame (m_id msg) SERVERDATA_AUTH_RESPONSE [])
                       (transport_write
                          (frame (m_id msg) SERVERDATA_RESPONSE_VALUE []) t1)]>)
                (set_resources
                   (<[rid conn :=
                        transport_write
                          (frame (m_id msg) SERVERDATA_RESPONSE_VALUE []) t1]>)
                   s1))))).
Proof.
  intros Hty Hbody. unfold handleConnection_auth.
  auth_start Hread Hmsg.
  rewrite Hty, Z.eqb_refl. cbn [negb].
  destruct (readResponse_int32 _ _ Hmsg) as (Hid & _ & _).
  erewrite bind_Ok
    by (unfold lift; by rewrite (proj1 (writeMessage_empty _ _ Hid))).
  erewrite bind_Ok
    by (apply conn_write_open with (t := t1);
        [rewrite Hs1; apply resources_set_resources_insert|done]).
  cbv beta.
  rewrite bool_decide_eq_true_2 by done. cbn [negb].
  erewrite bind_Ok
    by (unfold lift; by rewrite (proj1 (writeMessage_empty _ _ Hid))).
  erewrite bind_Ok
    by (eapply conn_write_open; [apply resources_set_resources_insert|done]).
  reflexivity.
Qed.
End Branches.

Lemma firstFrame_Ok (conn : Conn) (s : Server) (msg : Message) :
  firstFrame conn s = Ok msg ->
  exists r s1 t t1,
    conn_read conn
      (Buffer.alloc (4 + 4 + 4 + Buffer.byteLength (password s) + 2)) s
    = (Ok r, s1)
    /\ readResponse (fst r) = Ok msg
    /\ resources s !! rid conn = Some t /\ closed t = false
    /\ closed t1 = false /\ written t1 = written t
    /\ s1 = set_resources (<[rid conn := t1]>) s.
Proof.
  unfold firstFrame. intros H.
  destruct (conn_read conn _ s) as [[r|e] s1] eqn:Hread; [|done].
  destruct (conn_read_Ok _ _ _ _ _ Hread) as (t & t1 & ? & ? & ? & ? & ? & _).
  by exists r, s1, t, t1.
Qed.

Lemma set_resources_other (s : Server) (r r' : Z) (t : Transport) :
  r' <> r -> resources (set_resources (<[r := t]>) s) !! r' = resources s !! r'.
Proof. intros Hne. simpl. by apply lookup_insert_ne. Qed.

(** C2. When the first frame is an AUTH frame with id [i]: the gate first
    writes the empty-body RESPONSE_VALUE frame with id [i]; if the frame's
    body is the password it then writes the empty-body AUTH_RESPONSE frame
    with id [i], nothing else, and leaves the transport open (the
    connection is registered); otherwise it writes the empty-body
    AUTH_RESPONSE frame with id -1, nothing else, and closes the
    transport. *)
Theorem handleConnection_auth_gate (conn : Conn) (s : Server) (msg : Message) :
  firstFrame conn s = Ok msg ->
  m_type msg = SERVERDATA_AUTH ->
  exists t ack,
    resources s !! rid conn = Some t /\ closed t = false
    /\ writeMessage rnd {| bm_id := Some (m_id msg);
                           bm_type := SERVERDATA_RESPONSE_VALUE;
                           bm_body := [] |} = Ok ack
    /\ readResponse ack
       = Ok {| m_id := m_id msg; m_type := SERVERDATA_RESPONSE_VALUE;
               m_body := []; m_size := 10 |}
    /\ (m_body msg = password s ->
        exists accept s' t',
          writeMessage rnd {| bm_id := Some (m_id msg);
                              bm_type := SERVERDATA_AUTH_RESPONSE;
                              bm_body := [] |} = Ok accept
          /\ readResponse accept
             = Ok {| m_id := m_id msg; m_type := SERVERDATA_AUTH_RESPONSE;
                     m_body := []; m_size := 10 |}
          /\ handleConnection_auth rnd conn s = (Ok true, s')
          /\ resources s' !! rid conn = Some t'
          /\ written t' = written t ++ [ack; accept]
          /\ closed t' = false
          /\ registered s' conn
          /\ emitted s' = emitted s ++ [EvConnection (rid conn)])
    /\ (m_body msg <> password s ->
        exists reject s' t',
          writeMessage rnd {| bm_id := Some (-1);
                              bm_type := SERVERDATA_AUTH_RESPONSE;
                              bm_body := [] |} = Ok reject
          /\ readResponse reject
             = Ok {| m_id := -1; m_type := SERVERDATA_AUTH_RESPONSE;
                     m_body := []; m_size := 10 |}
          /\ handleConnection_auth rnd conn s = (Ok false, s')
          /\ (forall fuel, handleConnection rnd fuel conn s = (Ok tt, s'))
          /\ resources s' !! rid conn = Some t'
          /\ written t' = written t ++ [ack; reject]
          /\ closed t' = true
          /\ connections s' = connections s
          /\ emitted s' = emitted s).
Proof.
  intros Hfirst Hty.
  destruct (firstFrame_Ok _ _ _ Hfirst)
    as (r & s1 & t & t1 & Hread & Hmsg & Ht & Hopen & Hopen1 & Hw & Hs1).
  destruct (readResponse_int32 _ _ Hmsg) as (Hid & _ & _).
  destruct (writeMessage_empty (m_id msg) SERVERDATA_RESPONSE_VALUE Hid)
    as [Hack Hack'].
  exists t, (frame (m_id msg) SERVERDATA_RESPONSE_VALUE []).
  do 4 (split; [done|]). split.
  - intros Hbody.
    destruct (writeMessage_empty (m_id msg) SERVERDATA_AUTH_RESPONSE Hid)
      as [Hacc Hacc'].
    eexists _, _, _. split; [exact Hacc|]. split; [exact Hacc'|].
    split.
    { by apply (handleConnection_auth_right_password conn s s1 r msg t1). }
    split; [simpl; apply lookup_insert_eq|].
    split; [simpl; by rewrite Hw, <- app_assoc|].
    split; [done|].
    split; [|by rewrite Hs1].
    split; [simpl; apply lookup_insert_eq|].
    split; [simpl; rewrite JsMap_get_set_eq; eauto|].
    eexists. split; [simpl; apply lookup_insert_eq|done].
  - intros Hbody.
    assert (int32 (-1)) as Hm1 by (unfold int32; lia).
    destruct (writeMessage_empty (-1) SERVERDATA_AUTH_RESPONSE Hm1)
      as [Hrej Hrej'].
    pose proof (handleConnection_auth_wrong_password conn s s1 r msg t1
                  Hread Hmsg Hs1 Hopen1 Hty Hbody) as Hauth.
    eexists _, _, _. split; [exact Hrej|]. split; [exact Hrej'|].
    split; [exact Hauth|].
    split.
    { intros fuel. unfold handleConnection.
      erewrite bind_Ok by exact Hauth. reflexivity. }
    split; [simpl; apply lookup_insert_eq|].
    split; [simpl; by rewrite Hw, <- app_assoc|].
    split; [done|].
    by rewrite Hs1.
Qed.

(** C4. When the first frame's type is not AUTH (0 and 2, the other
    enumerated values, included), [handleConnection] closes the transport
    and returns: nothing is written, no event is emitted, and neither the
    registry nor the unreplied map changes. *)
Theorem handleConnection_rejects_non_auth (fuel : nat) (conn : Conn)
    (s : Server) (msg : Message) :
  firstFrame conn s = Ok msg ->
  m_type msg <> SERVERDATA_AUTH ->
  exists t s' t',
    handleConnection rnd fuel conn s = (Ok tt, s')
    /\ resources s !! rid conn = Some t /\ closed t = false
    /\ resources s' !! rid conn = Some t'
    /\ closed t' = true
    /\ written t' = written t
    /\ (forall r, r <> rid conn -> resources s' !! r = resources s !! r)
    /\ emitted s' = emitted s
    /\ connections s' = connections s
    /\ unreplied s' = unreplied s.
Proof.
  intros Hfirst Hty.
  destruct (firstFrame_Ok _ _ _ Hfirst)
    as (r & s1 & t & t1 & Hread & Hmsg & Ht & Hopen & Hopen1 & Hw & Hs1).
  pose proof (handleConnection_auth_wrong_type conn s s1 r msg t1
                Hread Hmsg Hs1 Hopen1 Hty) as Hauth.
  eexists t, _, _. split.
  { unfold handleConnection. erewrite bind_Ok by exact Hauth. reflexivity. }
  do 2 (split; [done|]).
  split; [simpl; apply lookup_insert_eq|].
  do 2 (split; [done|]).
  split.
  { intros r' Hne. rewrite set_resources_other by done.
    rewrite Hs1. by apply set_resources_other. }
  by rewrite Hs1.
Qed.

(** Every enumerated kind other than AUTH has a number other than 3. *)
Lemma MessageType_not_auth (t : MessageType) :
  t <> SERVERDATA_AUTH -> MessageType_value t <> SERVERDATA_AUTH.
Proof. by destruct t. Qed.

End AuthGate.

Section Witnesses.
Import Example.

Lemma jsstring_ok_short (s : jsstring) :
  (length s <= 16)%nat -> jsstring_ok s.
Proof. unfold jsstring_ok, kStringMaxLength. lia. Qed.

(** C2, with password "secret": an AUTH frame with id 5 and body "secret"
    is accepted, one with body "wrong" is turned away. *)
Lemma handleConnection_auth_gate_witness :
  (exists s',
     handleConnection_auth 0 client
       (fresh [frame 5 SERVERDATA_AUTH secret]) = (Ok true, s')
     /\ registered s' client)
  /\ (exists s',
        handleConnection_auth 0 client
          (fresh [frame 5 SERVERDATA_AUTH wrong]) = (Ok false, s')
        /\ connections s' = ∅).
Proof.
  split.
  - destruct (handleConnection_auth_gate 0 client
                (fresh [frame 5 SERVERDATA_AUTH secret])
                {| m_id := 5; m_type := 3; m_body := secret; m_size := 16 |}
                eq_refl eq_refl)
      as (t & ack & _ & _ & _ & _ & Haccept & _).
    destruct (Haccept eq_refl) as (accept & s' & t' & _ & _ & H & _ & _ & _ & Hreg & _).
    by exists s'.
  - destruct (handleConnection_auth_gate 0 client
                (fresh [frame 5 SERVERDATA_AUTH wrong])
                {| m_id := 5; m_type := 3; m_body := wrong; m_size := 15 |}
                eq_refl eq_refl)
      as (t & ack & _ & _ & _ & _ & _ & Hreject).
    destruct (Hreject ltac:(discriminate))
      as (reject & s' & t' & _ & _ & H & _ & _ & _ & _ & Hconn & _).
    by exists s'.
Defined.

(** C3, with the request "status" of id 42 answered by "ok": the one
    buffer written is the 16-byte frame of size 12, id 42, type 0 and body
    "ok". *)
Lemma request_reply_correlation_witness :
  exists s1 s2 : Server,
    handleConnection_buffer client
      (frame 42 SERVERDATA_EXECCOMMAND status) (serving []) = (Ok tt, s1)
    /\ JsMap.get 7 (unreplied s1) = Some [request 42]
    /\ reply 0 7 42 ok s1 = (Ok tt, s2)
    /\ JsMap.get 7 (unreplied s2) = Some []
    /\ resources s2 !! 7
       = Some {| incoming := [];
                 written := [[x0c; x00; x00; x00; x2a; x00; x00; x00;
                              x00; x00; x00; x00; x6f; x6b; x00; x00]];
                 closed := false |}.
Proof.
  destruct (request_reply_correlation 0 client (serving [])
              (frame 42 SERVERDATA_EXECCOMMAND status) (request 42) ok)
    as (s1 & pending1 & t1 & response & s2 & pending2 & t2
        & H1 & _ & _ & _ & _ & _ & _ & _ & H2 & _).
  - split; [reflexivity|]. split; [by eexists|]. by eexists.
  - reflexivity.
  - reflexivity.
  - apply jsstring_ok_short; simpl; lia.
  - exists s1, s2.
    vm_compute in H1. injection H1 as <-.
    vm_compute in H2. injection H2 as <-.
    repeat split.
Defined.

(** C4, with a first frame of type 2. *)
Lemma handleConnection_rejects_non_auth_witness :
  exists s',
    handleConnection 0 3 client
      (fresh [frame 5 SERVERDATA_EXECCOMMAND secret]) = (Ok tt, s')
    /\ emitted s' = [] /\ connections s' = ∅.
Proof.
  destruct (handleConnection_rejects_non_auth 0 3 client
              (fresh [frame 5 SERVERDATA_EXECCOMMAND secret])
              {| m_id := 5; m_type := 2; m_body := secret; m_size := 16 |}
              eq_refl ltac:(discriminate))
    as (t & s' & t' & H & _ & _ & _ & _ & _ & _ & He & Hc & _).
  by exists s'.
Defined.

(** C5, with connection id 8 while only 7 is registered. *)
Lemma reply_connection_not_found_witness :
  reply 0 8 42 ok (serving [request 42])
  = (Throw ERR_CONNECTION_NOT_FOUND, serving [request 42]).
Proof. by apply reply_connection_not_found. Defined.

(** C10, as stated, fails for the request id 2147483648, which no pending
    request can have: on a registered connection [reply] raises a
    [RangeError]. *)
Lemma reply_unmatched_id_counterexample :
  registered (serving [request 42]) client
  /\ Forall (fun m => m_id m <> 2147483648) [request 42]
  /\ ~ exists s', reply 0 7 2147483648 ok (serving [request 42]) = (Ok tt, s').
Proof.
  split; [|split].
  - split; [reflexivity|]. split; [by eexists|]. by eexists.
  - repeat constructor. discriminate.
  - intros [s' H]. vm_compute in H. discriminate H.
Qed.

(** C10 as amended, with the requests 42, 43, 42 pending: replying to 99
    leaves them all, replying to 42 leaves only 43, replying to 2147483648
    raises and leaves the server as it was. *)
Lemma reply_unmatched_or_shared_id_witness :
  (exists s',
     reply 0 7 99 ok (serving [request 42; request 43; request 42]) = (Ok tt, s')
     /\ unreplied s' = [(7, [request 42; request 43; request 42])])
  /\ (exists s',
        reply 0 7 42 ok (serving [request 42; request 43; request 42]) = (Ok tt, s')
        /\ JsMap.get 7 (unreplied s') = Some [request 43])
  /\ reply 0 7 2147483648 ok (serving [request 42; request 43; request 42])
     = (Throw ERR_OUT_OF_RANGE, serving [request 42; request 43; request 42]).
Proof.
  assert (registered (serving [request 42; request 43; request 42]) client) as Hreg.
  { split; [reflexivity|]. split; [by eexists|]. by eexists. }
  assert (jsstring_ok ok) as Hok by (apply jsstring_ok_short; simpl; lia).
  split; [|split].
  - destruct (reply_unmatched_or_shared_id 0 client _ 99 ok _ Hreg eq_refl Hok)
      as [Hin _].
    destruct Hin
      as (response & t & s' & t' & _ & _ & _ & _ & H & _ & _ & _ & _ & _ & _ & _
          & Hsame & _ & _).
    + unfold int32. lia.
    + exists s'. split; [done|]. apply Hsame.
      repeat constructor; discriminate.
  - destruct (reply_unmatched_or_shared_id 0 client _ 42 ok _ Hreg eq_refl Hok)
      as [Hin _].
    destruct Hin
      as (response & t & s' & t' & _ & _ & _ & _ & H & _ & _ & _ & _ & _ & Hget & _).
    + unfold int32. lia.
    + by exists s'.
  - apply (proj2 (reply_unmatched_or_shared_id 0 client _ 2147483648 ok _
                    Hreg eq_refl Hok)).
    unfold int32. lia.
Defined.

(** C9, on a server where request 42 of connection 7 is pending: the
    timer's call emits nothing, the same method called on the server emits
    the notification. *)
Example unrepliedInterval_tick_pending :
  unrepliedInterval_tick (serving [request 42])
  = (Throw ERR_NOT_ITERABLE, serving [request 42])
  /\ emitted (snd (notifyUnreplied this_server (serving [request 42])))
     = [EvConnection 7; EvUnreplied 7 (request 42)].
Proof. split; reflexivity. Qed.

End Witnesses.

(** * Further properties of the codec *)

Section CodecMore.
Import Buffer.
Variable rnd : Z.

(** X1. What a receiver decodes from any frame the server encodes: id and
    type come back unchanged; the body comes back with every character
    masked to 7 bits and followed by one NUL character per byte that UTF-8
    needs beyond one per character. *)
Theorem writeMessage_readResponse_any_body
    (i : Z) (t : MessageType) (body : jsstring) :
  int32 i ->
  jsstring_ok body ->
  exists buffer,
    writeMessage rnd {| bm_id := Some i; bm_type := t; bm_body := body |} = Ok buffer
    /\ readResponse buffer
       = Ok {| m_id := i; m_type := t;
               m_body := map (fun c => Z.land c 127) body
                           ++ replicate (Z.to_nat (byteLength body) - length body) 0;
               m_size := byteLength body + 10 |}.
Proof.
  intros Hi Hok. exists (frame i t body). split.
  - by apply (writeMessage_frame rnd
                {| bm_id := Some i; bm_type := t; bm_body := body |});
      [|apply MessageType_int32|].
  - apply readResponse_frame_any; auto using MessageType_int32.
Qed.

Lemma toString_ascii_length (buffer : list byte) (end_ : Z) :
  (12 <= length buffer)%nat ->
  length (toString_ascii buffer 12 end_)
  = Z.to_nat (Z.min end_ (Z.of_nat (length buffer)) - 12).
Proof.
  intros Hlen. unfold toString_ascii. cbn [Z.leb Z.compare].
  destruct (Z.leb_spec (Z.of_nat (length buffer)) 12); [simpl; lia|].
  destruct (Z.ltb_spec (Z.of_nat (length buffer)) end_).
  - destruct (Z.leb_spec (Z.of_nat (length buffer)) 12); [lia|].
    unfold asciiSlice. rewrite length_map, length_take, length_drop. lia.
  - destruct (Z.leb_spec end_ 12); [simpl; lia|].
    unfold asciiSlice. rewrite length_map, length_take, length_drop. lia.
Qed.

Lemma toString_ascii_7bit (buffer : list byte) (start end_ : Z) :
  Forall (fun c => 0 <= c < 128) (toString_ascii buffer start end_).
Proof.
  unfold toString_ascii.
  repeat match goal with
         | |- context [if ?c then _ else _] => destruct c
         end; try by constructor.
  all: unfold asciiSlice; apply Forall_map, Forall_forall; intros b _;
    change 127 with (Z.ones 7); rewrite Z.land_ones by lia;
    apply Z.mod_pos_bound; lia.
Qed.

Lemma readResponse_Ok_length (buffer : list byte) (message : Message) :
  readResponse buffer = Ok message -> (12 <= length buffer)%nat.
Proof.
  intros H. destruct (Nat.le_gt_cases 12 (length buffer)) as [|Hlt]; [done|].
  pose proof (readInt32LE_Throw buffer 8 ltac:(lia) ltac:(lia)) as E8.
  unfold readResponse in H.
  destruct (readInt32LE buffer 0); [|done].
  destruct (readInt32LE buffer 4); [|done].
  by rewrite E8 in H.
Qed.

Lemma readResponse_body (buffer : list byte) (message : Message) :
  readResponse buffer = Ok message ->
  m_body message = toString_ascii buffer 12 (m_size message + 2).
Proof.
  unfold readResponse. intros H.
  destruct (readInt32LE buffer 0); [|done].
  destruct (readInt32LE buffer 4); [|done].
  destruct (readInt32LE buffer 8); [|done].
  by injection H as <-.
Qed.

(** X2. Whatever bytes [readResponse] is given, a frame it returns has
    id, type and size in the signed 32-bit range and a body of 7-bit
    characters taken from inside the buffer: its length is
    [min(size + 2, buffer.length) - 12], or 0 when that is negative. *)
Theorem readResponse_fields (buffer : list byte) (message : Message) :
  readResponse buffer = Ok message ->
  int32 (m_id message) /\ int32 (m_type message) /\ int32 (m_size message)
  /\ Forall (fun c => 0 <= c < 128) (m_body message)
  /\ length (m_body message)
     = Z.to_nat (Z.min (m_size message + 2) (Z.of_nat (length buffer)) - 12)
  /\ (length (m_body message) + 12 <= length buffer)%nat.
Proof.
  intros H.
  pose proof (readResponse_Ok_length _ _ H) as Hlen.
  pose proof (readResponse_body _ _ H) as Hbody.
  pose proof (toString_ascii_length buffer (m_size message + 2) Hlen) as Hl.
  rewrite <- Hbody in Hl.
  unfold readResponse in H.
  destruct (readInt32LE buffer 0) eqn:E0; [|done].
  destruct (readInt32LE buffer 4) eqn:E4; [|done].
  destruct (readInt32LE buffer 8) eqn:E8; [|done].
  injection H as <-. cbn [m_id m_type m_size m_body] in *.
  repeat split; try (eapply readInt32LE_int32; eassumption).
  - apply toString_ascii_7bit.
  - done.
  - lia.
Qed.

Lemma get_app_l (buffer extra : list byte) (i : Z) :
  i < Z.of_nat (length buffer) -> get (buffer ++ extra) i = get buffer i.
Proof.
  intros Hi. unfold get. destruct (Z.ltb_spec i 0); [done|].
  apply lookup_app_l. lia.
Qed.

Lemma readInt32LE_app_l (buffer extra : list byte) (off : Z) :
  off + 4 <= Z.of_nat (length buffer) ->
  readInt32LE (buffer ++ extra) off = readInt32LE buffer off.
Proof.
  intros H. unfold readInt32LE. by rewrite !get_app_l by lia.
Qed.

Lemma toString_ascii_app_l (buffer extra : list byte) (end_ : Z) :
  (12 <= length buffer)%nat -> end_ <= Z.of_nat (length buffer) ->
  toString_ascii (buffer ++ extra) 12 end_ = toString_ascii buffer 12 end_.
Proof.
  intros Hlen Hend. unfold toString_ascii. rewrite length_app.
  cbv zeta. change (12 <=? 0) with false. cbv iota.
  destruct (Z.ltb_spec (Z.of_nat (length buffer)) end_); [lia|].
  destruct (Z.ltb_spec (Z.of_nat (length buffer + length extra)) end_); [lia|].
  destruct (Z.leb_spec end_ 12).
  - destruct (Z.leb_spec (Z.of_nat (length buffer + length extra)) 12);
      by destruct (Z.leb_spec (Z.of_nat (length buffer)) 12).
  - destruct (Z.leb_spec (Z.of_nat (length buffer + length extra)) 12); [lia|].
    destruct (Z.leb_spec (Z.of_nat (length buffer)) 12); [lia|].
    unfold asciiSlice. f_equal.
    rewrite drop_app_le by lia. apply take_app_le.
    rewrite length_drop. lia.
Qed.

(** X3. Bytes that follow a complete frame in the same buffer are not
    looked at: when the size field stays within the buffer, the decoded
    frame is the same with and without them.  A second frame delivered in
    the same chunk is therefore never decoded. *)
Theorem readResponse_ignores_trailing_bytes
    (buffer extra : list byte) (message : Message) :
  readResponse buffer = Ok message ->
  m_size message + 2 <= Z.of_nat (length buffer) ->
  readResponse (buffer ++ extra) = Ok message.
Proof.
  intros H Hsize.
  pose proof (readResponse_Ok_length _ _ H) as Hlen.
  unfold readResponse in *.
  rewrite !readInt32LE_app_l by lia.
  destruct (readInt32LE buffer 0) as [size|]; [|done].
  destruct (readInt32LE buffer 4) as [id|]; [|done].
  destruct (readInt32LE buffer 8) as [type|]; [|done].
  cbn [rbind] in *. injection H as <-. cbn [m_size] in Hsize.
  by rewrite toString_ascii_app_l.
Qed.

Lemma writeMessage_type_out_of_range (m : BaseMessage) :
  ~ int32 (bm_type m) ->
  writeMessage rnd m = Throw ERR_OUT_OF_RANGE.
Proof.
  intros Hty. unfold writeMessage.
  destruct (writeInt32LE _ (byteLength (bm_body m) + 10) 0) as [b|e] eqn:E0.
  - cbn [rbind].
    destruct (writeInt32LE b _ 4) as [b'|e] eqn:E4.
    + cbn [rbind]. unfold writeInt32LE at 1.
      unfold int32 in Hty. change (2^31) with 2147483648 in Hty.
      destruct (Z.ltb_spec (bm_type m) (- 0x80000000)); [reflexivity|].
      destruct (Z.ltb_spec 0x7fffffff (bm_type m)); [reflexivity|lia].
    + unfold writeInt32LE in E4.
      repeat match type of E4 with
             | (if ?c then _ else _) = _ => destruct c
             end; by inversion E4.
  - unfold writeInt32LE in E0.
    repeat match type of E0 with
           | (if ?c then _ else _) = _ => destruct c
           end; by inversion E0.
Qed.

(** X4. For a body the engine can hold and integer values of id and type:
    [writeMessage] returns a buffer exactly when the id it stores (the
    given one, or the generated one for a null id) and the type both lie in
    the signed 32-bit range [-2^31, 2^31 - 1]; for every other integer id
    or type it raises a [RangeError].  (Ids that are not integers are not
    covered: see [Buffer.writeInt32LE].) *)
Theorem writeMessage_succeeds_iff (m : BaseMessage) :
  jsstring_ok (bm_body m) ->
  ((exists buffer, writeMessage rnd m = Ok buffer)
   <-> int32 (message_id rnd m) /\ int32 (bm_type m))
  /\ ((~ exists buffer, writeMessage rnd m = Ok buffer)
      -> writeMessage rnd m = Throw ERR_OUT_OF_RANGE).
Proof.
  intros Hok.
  assert ((exists buffer, writeMessage rnd m = Ok buffer)
          <-> int32 (message_id rnd m) /\ int32 (bm_type m)) as Hiff.
  { split.
    - intros [buffer H].
      destruct (decide (int32 (message_id rnd m))) as [Hid|Hid]; cycle 1.
      { by rewrite writeMessage_id_out_of_range in H. }
      destruct (decide (int32 (bm_type m))) as [Hty|Hty]; [done|].
      by rewrite writeMessage_type_out_of_range in H.
    - intros [Hid Hty]. eexists. by apply writeMessage_frame. }
  split; [exact Hiff|].
  intros Hno.
  destruct (decide (int32 (message_id rnd m))) as [Hid|Hid]; cycle 1.
  { by apply writeMessage_id_out_of_range. }
  destruct (decide (int32 (bm_type m))) as [Hty|Hty]; cycle 1.
  { by apply writeMessage_type_out_of_range. }
  exfalso. apply Hno, Hiff. done.
Qed.

End CodecMore.

(** * Further properties of the server *)

Section JsMapMore.
Context {V : Type}.

Lemma JsMap_keys_set (k : Z) (v : V) (m : list (Z * V)) (x : Z) :
  x ∈ map fst (JsMap.set k v m) -> x = k \/ x ∈ map fst m.
Proof.
  induction m as [|[k' v'] m IH]; simpl.
  - intros ->%list_elem_of_singleton. by left.
  - destruct (Z.eqb_spec k' k) as [->|Hne]; simpl.
    + intros [->|H]%elem_of_cons; [by left|]. right. by right.
    + intros [->|H]%elem_of_cons; [right; by left|].
      destruct (IH H) as [->|Hin]; [by left|]. right. by right.
Qed.

Lemma JsMap_keys_delete (k : Z) (m : list (Z * V)) (x : Z) :
  x ∈ map fst (JsMap.delete k m) -> x ∈ map fst m.
Proof.
  induction m as [|[k' v'] m IH]; simpl; [done|].
  destruct (Z.eqb_spec k' k) as [->|Hne]; simpl.
  - intros H. by right.
  - intros [->|H]%elem_of_cons; [by left|]. right. by apply IH.
Qed.

Lemma JsMap_NoDup_set (k : Z) (v : V) (m : list (Z * V)) :
  NoDup (map fst m) -> NoDup (map fst (JsMap.set k v m)).
Proof.
  induction m as [|[k' v'] m IH]; simpl.
  - intros _. apply NoDup_singleton.
  - intros [Hnotin Hnd]%NoDup_cons.
    destruct (Z.eqb_spec k' k) as [->|Hne]; simpl.
    + by apply NoDup_cons.
    + apply NoDup_cons. split; [|by apply IH].
      intros [->|Hin]%JsMap_keys_set; done.
Qed.

Lemma JsMap_NoDup_delete (k : Z) (m : list (Z * V)) :
  NoDup (map fst m) -> NoDup (map fst (JsMap.delete k m)).
Proof.
  induction m as [|[k' v'] m IH]; simpl; [done|].
  intros [Hnotin Hnd]%NoDup_cons.
  destruct (Z.eqb_spec k' k) as [->|Hne]; simpl; [done|].
  apply NoDup_cons. split; [|by apply IH].
  intros Hin%JsMap_keys_delete. done.
Qed.

Lemma JsMap_get_notin (k : Z) (m : list (Z * V)) :
  k ∉ map fst m -> JsMap.get k m = None.
Proof.
  induction m as [|[k' v'] m IH]; simpl; [done|].
  intros Hnotin. destruct (Z.eqb_spec k' k) as [->|Hne].
  - exfalso. apply Hnotin. by left.
  - apply IH. intros Hin. apply Hnotin. by right.
Qed.

Lemma JsMap_get_delete_eq (k : Z) (m : list (Z * V)) :
  NoDup (map fst m) -> JsMap.get k (JsMap.delete k m) = None.
Proof.
  induction m as [|[k' v'] m IH]; simpl; [done|].
  intros [Hnotin Hnd]%NoDup_cons.
  destruct (Z.eqb_spec k' k) as [->|Hne]; simpl.
  - by apply JsMap_get_notin.
  - destruct (Z.eqb_spec k' k); [done|]. by apply IH.
Qed.

Lemma JsMap_get_delete_ne (k k' : Z) (m : list (Z * V)) :
  k <> k' -> JsMap.get k' (JsMap.delete k m) = JsMap.get k' m.
Proof.
  intros Hne. induction m as [|[k0 v0] m IH]; simpl; [done|].
  destruct (Z.eqb_spec k0 k) as [->|Hne0]; simpl.
  - by destruct (Z.eqb_spec k k').
  - by rewrite IH.
Qed.

End JsMapMore.

Section Consistency.

Lemma consistent_maps_set (cs : gmap Z Conn) (us : list (Z * list Message))
    (k : Z) (v : list Message) :
  is_Some (JsMap.get k us) ->
  consistent_maps cs us -> consistent_maps cs (JsMap.set k v us).
Proof.
  intros Hk [Hnd Hdom]. split; [by apply JsMap_NoDup_set|].
  intros r. rewrite Hdom. destruct (decide (k = r)) as [->|Hne].
  - rewrite JsMap_get_set_eq. split; eauto.
  - by rewrite JsMap_get_set_ne.
Qed.

Lemma consistent_maps_register (cs : gmap Z Conn) (us : list (Z * list Message))
    (k : Z) (c : Conn) (v : list Message) :
  consistent_maps cs us -> consistent_maps (<[k := c]> cs) (JsMap.set k v us).
Proof.
  intros [Hnd Hdom]. split; [by apply JsMap_NoDup_set|].
  intros r. destruct (decide (k = r)) as [->|Hne].
  - rewrite lookup_insert_eq, JsMap_get_set_eq. split; eauto.
  - by rewrite lookup_insert_ne, JsMap_get_set_ne.
Qed.

Lemma consistent_maps_unregister (cs : gmap Z Conn) (us : list (Z * list Message))
    (k : Z) :
  consistent_maps cs us -> consistent_maps (delete k cs) (JsMap.delete k us).
Proof.
  intros [Hnd Hdom]. split; [by apply JsMap_NoDup_delete|].
  intros r. destruct (decide (k = r)) as [->|Hne].
  - rewrite lookup_delete_eq, JsMap_get_delete_eq by done.
    split; intros [? ?]; done.
  - by rewrite lookup_delete_ne, JsMap_get_delete_ne.
Qed.

Section Keeps.
Context {P : Server -> Prop}.

Lemma keeps_ret {A : Type} (a : A) : keeps P (ret a).
Proof. by intros s. Qed.

Lemma keeps_throw {A : Type} (e : JsError) : keeps P (@throw A e).
Proof. by intros s. Qed.

Lemma keeps_lift {A : Type} (r : result A) : keeps P (lift r).
Proof. by intros s. Qed.

Lemma keeps_gets {A : Type} (f : Server -> A) : keeps P (gets f).
Proof. by intros s. Qed.

Lemma keeps_modify (f : Server -> Server) :
  (forall s, P s -> P (f s)) -> keeps P (modify f).
Proof. intros Hf s Hs. by apply Hf. Qed.

Lemma keeps_bind {A B : Type} (m : M A) (k : A -> M B) :
  keeps P m -> (forall a, keeps P (k a)) -> keeps P (bind m k).
Proof.
  intros Hm Hk s Hs. unfold bind. specialize (Hm s Hs).
  destruct (m s) as [[a|e] s']; simpl in *; [by apply Hk|done].
Qed.

Lemma keeps_try_catch {A : Type} (m : M A) (h : JsError -> M A) :
  keeps P m -> (forall e, keeps P (h e)) -> keeps P (try_catch m h).
Proof.
  intros Hm Hh s Hs. unfold try_catch. specialize (Hm s Hs).
  destruct (m s) as [[a|e] s']; simpl in *; [done|by apply Hh].
Qed.

Lemma keeps_forOf {A : Type} (l : list A) (body : A -> M unit) :
  (forall x, keeps P (body x)) -> keeps P (forOf l body).
Proof.
  intros Hbody. induction l as [|x l IH]; simpl.
  - apply keeps_ret.
  - apply keeps_bind; [apply Hbody|]. intros _. apply IH.
Qed.
End Keeps.

(** Every method keeps a property of the registry that survives the three
    ways the methods change it: registering a connection (with an empty
    unreplied list), unregistering one, replacing the unreplied list of a
    key that has one. *)
Section RegistryInvariant.
Variable P : Server -> Prop.
Hypothesis P_same :
  forall s s', connections s' = connections s -> unreplied s' = unreplied s ->
               P s -> P s'.
Hypothesis P_register :
  forall c s s',
    connections s' = <[rid c := c]> (connections s) ->
    unreplied s' = JsMap.set (rid c) [] (unreplied s) ->
    P s -> P s'.
Hypothesis P_unregister :
  forall k s s',
    connections s' = delete k (connections s) ->
    unreplied s' = JsMap.delete k (unreplied s) ->
    P s -> P s'.
Hypothesis P_update :
  forall k v s s',
    is_Some (JsMap.get k (unreplied s)) ->
    connections s' = connections s ->
    unreplied s' = JsMap.set k v (unreplied s) ->
    P s -> P s'.

Lemma keeps_emit (e : Event) : keeps P (emit e).
Proof. intros s Hs. by apply (P_same s). Qed.

Lemma keeps_conn_read (conn : Conn) (p : list byte) : keeps P (conn_read conn p).
Proof.
  intros s Hs. unfold conn_read.
  repeat match goal with
         | |- context [match ?x with _ => _ end] => destruct x
         end; by apply (P_same s).
Qed.

Lemma keeps_conn_write (conn : Conn) (p : list byte) : keeps P (conn_write conn p).
Proof.
  intros s Hs. unfold conn_write.
  repeat match goal with
         | |- context [match ?x with _ => _ end] => destruct x
         end; by apply (P_same s).
Qed.

Lemma keeps_conn_close (conn : Conn) : keeps P (conn_close conn).
Proof.
  intros s Hs. unfold conn_close.
  repeat match goal with
         | |- context [match ?x with _ => _ end] => destruct x
         end; by apply (P_same s).
Qed.

Lemma keeps_closeConnection (r : Z) : keeps P (closeConnection r).
Proof.
  unfold closeConnection. apply keeps_bind; [apply keeps_gets|].
  intros [conn|]; [|apply keeps_ret].
  apply keeps_bind; [apply keeps_conn_close|]. intros _.
  intros s Hs. by apply (P_unregister r s).
Qed.

Lemma keeps_buffer (conn : Conn) (buffer : list byte) :
  keeps P (handleConnection_buffer conn buffer).
Proof.
  unfold handleConnection_buffer.
  apply keeps_bind; [apply keeps_lift|]. intros message.
  destruct (m_type message =? SERVERDATA_EXECCOMMAND).
  - apply keeps_bind; [apply keeps_emit|]. intros _.
    apply keeps_modify. intros s Hs.
    destruct (JsMap.get (rid conn) (unreplied s)) eqn:E; [|done].
    apply (P_update (rid conn) (l ++ [message]) s); [by rewrite E|done..].
  - destruct (m_type message =? SERVERDATA_RESPONSE_VALUE); [|apply keeps_ret].
    apply keeps_bind; [apply keeps_conn_write|]. intros _.
    apply keeps_ret.
Qed.

Lemma keeps_loop (fuel : nat) (conn : Conn) (b : list byte) :
  keeps P (handleConnection_loop fuel conn b).
Proof.
  revert b. induction fuel as [|fuel IH]; intros b; simpl.
  - apply keeps_ret.
  - apply keeps_bind; [apply keeps_conn_read|]. intros r.
    destruct (snd r); [|apply keeps_ret].
    apply keeps_bind; [apply keeps_buffer|]. intros _. apply IH.
Qed.

Variable rnd : Z.

Lemma keeps_auth (conn : Conn) : keeps P (handleConnection_auth rnd conn).
Proof.
  unfold handleConnection_auth.
  apply keeps_bind; [apply keeps_gets|]. intros pw. cbv zeta.
  apply keeps_bind; [apply keeps_conn_read|]. intros r.
  apply keeps_bind; [apply keeps_lift|]. intros authMessage.
  destruct (negb (m_type authMessage =? SERVERDATA_AUTH)).
  { apply keeps_bind; [apply keeps_conn_close|]. intros _.
    apply keeps_ret. }
  apply keeps_bind; [apply keeps_lift|]. intros b.
  apply keeps_bind; [apply keeps_conn_write|]. intros _.
  destruct (negb (bool_decide (m_body authMessage = pw))).
  { apply keeps_bind; [apply keeps_lift|]. intros b'.
    apply keeps_bind; [apply keeps_conn_write|]. intros _.
    apply keeps_bind; [apply keeps_conn_close|]. intros _.
    apply keeps_ret. }
  apply keeps_bind; [apply keeps_lift|]. intros b'.
  apply keeps_bind; [apply keeps_conn_write|]. intros _.
  intros s Hs. by apply (P_register conn s).
Qed.

Lemma keeps_reply (r reqId : Z) (body : jsstring) :
  keeps P (reply rnd r reqId body).
Proof.
  unfold reply. apply keeps_bind; [apply keeps_gets|].
  intros [conn|]; [|apply keeps_throw].
  apply keeps_bind; [apply keeps_lift|]. intros message.
  apply keeps_bind; [apply keeps_conn_write|]. intros _.
  apply keeps_modify. intros s Hs.
  destruct (JsMap.get r (unreplied s)) eqn:E; [|done].
  apply (P_update r (filter (fun m => m_id m <> reqId) l) s);
    [by rewrite E|done..].
Qed.

Lemma keeps_handleConnection (fuel : nat) (conn : Conn) :
  keeps P (handleConnection rnd fuel conn).
Proof.
  unfold handleConnection.
  apply keeps_bind; [apply keeps_auth|]. intros [|]; [|apply keeps_ret].
  apply keeps_try_catch.
  - apply keeps_bind; [apply keeps_loop|].
    intros [|]; [apply keeps_closeConnection|apply keeps_ret].
  - intros []; (apply keeps_closeConnection || apply keeps_ret).
Qed.

Lemma keeps_notifyUnreplied (this : This) : keeps P (notifyUnreplied this).
Proof.
  unfold notifyUnreplied. apply keeps_bind.
  - intros s Hs. by destruct (this_unreplied this s).
  - intros entries. apply keeps_forOf. intros [r messages].
    apply keeps_forOf. intros message. apply keeps_emit.
Qed.

End RegistryInvariant.

Section Invariants.
Variable rnd : Z.

Lemma consistent_same (s s' : Server) :
  connections s' = connections s -> unreplied s' = unreplied s ->
  consistent s -> consistent s'.
Proof. unfold consistent. by intros -> ->. Qed.

Lemma consistent_register (c : Conn) (s s' : Server) :
  connections s' = <[rid c := c]> (connections s) ->
  unreplied s' = JsMap.set (rid c) [] (unreplied s) ->
  consistent s -> consistent s'.
Proof. unfold consistent. intros -> ->. apply consistent_maps_register. Qed.

Lemma consistent_unregister (k : Z) (s s' : Server) :
  connections s' = delete k (connections s) ->
  unreplied s' = JsMap.delete k (unreplied s) ->
  consistent s -> consistent s'.
Proof. unfold consistent. intros -> ->. apply consistent_maps_unregister. Qed.

Lemma consistent_update (k : Z) (v : list Message) (s s' : Server) :
  is_Some (JsMap.get k (unreplied s)) ->
  connections s' = connections s ->
  unreplied s' = JsMap.set k v (unreplied s) ->
  consistent s -> consistent s'.
Proof. unfold consistent. intros Hk -> ->. by apply consistent_maps_set. Qed.

(** X5. The registry and the unreplied map stay in step: if, before a call,
    the two maps have the same keys (and the unreplied map one entry per
    key), they still do after [handleConnection] (for any number of loop
    turns), [closeConnection], [reply] and [notifyUnreplied], whether the
    call returns or throws. *)
Theorem registry_stays_consistent (s : Server) :
  consistent s ->
  (forall fuel conn, consistent (snd (handleConnection rnd fuel conn s)))
  /\ (forall r, consistent (snd (closeConnection r s)))
  /\ (forall r reqId body, consistent (snd (reply rnd r reqId body s)))
  /\ (forall this, consistent (snd (notifyUnreplied this s))).
Proof.
  intros Hs. split; [|split; [|split]]; intros.
  - by apply (keeps_handleConnection consistent consistent_same
                consistent_register consistent_unregister consistent_update).
  - by apply (keeps_closeConnection consistent consistent_same
                consistent_unregister).
  - by apply (keeps_reply consistent consistent_same consistent_update).
  - by apply (keeps_notifyUnreplied consistent consistent_same).
Qed.

Lemma keyed_same (s s' : Server) :
  connections s' = connections s -> unreplied s' = unreplied s ->
  keyed_by_rid s -> keyed_by_rid s'.
Proof. unfold keyed_by_rid. by intros -> _. Qed.

Lemma keyed_register (c : Conn) (s s' : Server) :
  connections s' = <[rid c := c]> (connections s) ->
  unreplied s' = JsMap.set (rid c) [] (unreplied s) ->
  keyed_by_rid s -> keyed_by_rid s'.
Proof.
  unfold keyed_by_rid. intros -> _ Hs r c'.
  intros [[<- <-]|[_ H]]%lookup_insert_Some; [done|by apply Hs].
Qed.

Lemma keyed_unregister (k : Z) (s s' : Server) :
  connections s' = delete k (connections s) ->
  unreplied s' = JsMap.delete k (unreplied s) ->
  keyed_by_rid s -> keyed_by_rid s'.
Proof.
  unfold keyed_by_rid. intros -> _ Hs r c'.
  intros [_ H]%lookup_delete_Some. by apply Hs.
Qed.

Lemma keyed_update (k : Z) (v : list Message) (s s' : Server) :
  is_Some (JsMap.get k (unreplied s)) ->
  connections s' = connections s ->
  unreplied s' = JsMap.set k v (unreplied s) ->
  keyed_by_rid s -> keyed_by_rid s'.
Proof. unfold keyed_by_rid. by intros _ -> _. Qed.

(** X21. Every connection in the registry sits under its own [rid]: if
    that holds before a call, it holds after [handleConnection],
    [closeConnection], [reply] and [notifyUnreplied], whether the call
    returns or throws.  So [reply(rid, ...)] always writes to the transport
    whose id is [rid]. *)
Theorem registry_keys_are_rids (s : Server) :
  keyed_by_rid s ->
  (forall fuel conn, keyed_by_rid (snd (handleConnection rnd fuel conn s)))
  /\ (forall r, keyed_by_rid (snd (closeConnection r s)))
  /\ (forall r reqId body, keyed_by_rid (snd (reply rnd r reqId body s)))
  /\ (forall this, keyed_by_rid (snd (notifyUnreplied this s))).
Proof.
  intros Hs. split; [|split; [|split]]; intros.
  - by apply (keeps_handleConnection keyed_by_rid keyed_same
                keyed_register keyed_unregister keyed_update).
  - by apply (keeps_closeConnection keyed_by_rid keyed_same keyed_unregister).
  - by apply (keeps_reply keyed_by_rid keyed_same keyed_update).
  - by apply (keeps_notifyUnreplied keyed_by_rid keyed_same).
Qed.

End Invariants.
End Consistency.

Section RegistryMore.
Variable rnd : Z.

Lemma closeConnection_registered (r : Z) (conn : Conn) (s : Server) (t : Transport) :
  connections s !! r = Some conn ->
  resources s !! rid conn = Some t -> closed t = false ->
  closeConnection r s
  = (Ok tt,
     set_unreplied (JsMap.delete r)
       (set_emitted (fun l => l ++ [EvClose r])
          (set_connections (delete r)
             (set_resources (<[rid conn := transport_close t]>) s)))).
Proof.
  intros Hconn Ht Hopen. unfold closeConnection.
  erewrite bind_Ok by (unfold gets; reflexivity). rewrite Hconn.
  erewrite bind_Ok by (by apply conn_close_open).
  reflexivity.
Qed.

Lemma closeConnection_Ok_unregisters (r : Z) (s s1 : Server) :
  closeConnection r s = (Ok tt, s1) -> connections s1 !! r = None.
Proof.
  unfold closeConnection, bind, gets. simpl.
  destruct (connections s !! r) as [conn|] eqn:Hconn.
  - destruct (conn_close conn s) as [[[]|e] s0]; [|done].
    intros [= <-]. simpl. apply lookup_delete_eq.
  - by intros [= <-].
Qed.

(** X6. [closeConnection] on a registered connection closes its transport
    (what was written stays as it was), removes the connection from the
    registry, discards its unreplied list and emits one "close" event. *)
Theorem closeConnection_tears_down (conn : Conn) (s : Server) :
  registered s conn ->
  consistent s ->
  exists s' t t',
    closeConnection (rid conn) s = (Ok tt, s')
    /\ connections s' !! rid conn = None
    /\ JsMap.get (rid conn) (unreplied s') = None
    /\ resources s !! rid conn = Some t
    /\ resources s' !! rid conn = Some t'
    /\ closed t' = true
    /\ written t' = written t
    /\ emitted s' = emitted s ++ [EvClose (rid conn)].
Proof.
  intros (Hconn & _ & t & Ht & Hopen) [Hnd _].
  eexists _, t, _. split; [by eapply closeConnection_registered|].
  split; [simpl; apply lookup_delete_eq|].
  split; [simpl; by apply JsMap_get_delete_eq|].
  split; [done|].
  split; [simpl; apply lookup_insert_eq|].
  done.
Qed.

(** X7. Once [closeConnection] has returned, the id is unknown to the
    server: closing it again returns without touching anything, and
    [reply] to it fails with "Connection not found" and writes nothing. *)
Theorem closeConnection_then_unknown (r : Z) (s s1 : Server) :
  closeConnection r s = (Ok tt, s1) ->
  closeConnection r s1 = (Ok tt, s1)
  /\ forall reqId body,
       reply rnd r reqId body s1 = (Throw ERR_CONNECTION_NOT_FOUND, s1).
Proof.
  intros Hnone%closeConnection_Ok_unregisters. split.
  - unfold closeConnection.
    erewrite bind_Ok by (unfold gets; reflexivity). by rewrite Hnone.
  - intros reqId body. unfold reply.
    erewrite bind_Ok by (unfold gets; reflexivity). by rewrite Hnone.
Qed.

(** X8. [reply] and [closeConnection] for one connection leave every
    other connection alone: its registry entry, its unreplied list and
    its transport are the same afterwards, whether the call returns or
    throws. *)
Theorem other_connections_untouched (s : Server) (r r' : Z) :
  keyed_by_rid s ->
  r' <> r ->
  (forall reqId body,
     let s' := snd (reply rnd r reqId body s) in
     connections s' !! r' = connections s !! r'
     /\ JsMap.get r' (unreplied s') = JsMap.get r' (unreplied s)
     /\ resources s' !! r' = resources s !! r')
  /\ (let s' := snd (closeConnection r s) in
      connections s' !! r' = connections s !! r'
      /\ JsMap.get r' (unreplied s') = JsMap.get r' (unreplied s)
      /\ resources s' !! r' = resources s !! r').
Proof.
  intros Hkey Hne. split.
  - intros reqId body.
    unfold reply, bind, gets, lift, throw, modify, conn_write. simpl.
    destruct (connections s !! r) as [conn|] eqn:Hconn; [|done].
    apply Hkey in Hconn as Hrid. rewrite Hrid.
    destruct (writeMessage rnd _); [|done].
    destruct (resources s !! r) as [t|]; [|done].
    destruct (closed t); [done|]. simpl.
    destruct (JsMap.get r (unreplied s)); simpl.
    + rewrite JsMap_get_set_ne by done. by rewrite lookup_insert_ne.
    + by rewrite lookup_insert_ne.
  - unfold closeConnection, bind, gets, modify, emit, conn_close. simpl.
    destruct (connections s !! r) as [conn|] eqn:Hconn; [|done].
    apply Hkey in Hconn as Hrid. rewrite Hrid.
    destruct (resources s !! r) as [t|]; [|done].
    destruct (closed t); [done|]. simpl.
    rewrite lookup_delete_ne, JsMap_get_delete_ne, lookup_insert_ne by done.
    done.
Qed.

Lemma handleConnection_buffer_echo (conn : Conn) (s : Server)
    (buffer : list byte) (message : Message) (t : Transport) :
  readResponse buffer = Ok message ->
  m_type message = SERVERDATA_RESPONSE_VALUE ->
  resources s !! rid conn = Some t -> closed t = false ->
  handleConnection_buffer conn buffer s
  = (Ok tt, set_resources (<[rid conn := transport_write buffer t]>) s).
Proof.
  intros Hread Hty Ht Hopen. unfold handleConnection_buffer.
  erewrite bind_Ok by (unfold lift; by rewrite Hread).
  rewrite Hty. cbn [MessageType_value Z.eqb].
  erewrite bind_Ok by (by apply conn_write_open).
  reflexivity.
Qed.

Lemma handleConnection_buffer_other (conn : Conn) (s : Server)
    (buffer : list byte) (message : Message) :
  readResponse buffer = Ok message ->
  m_type message <> SERVERDATA_EXECCOMMAND ->
  m_type message <> SERVERDATA_RESPONSE_VALUE ->
  handleConnection_buffer conn buffer s = (Ok tt, s).
Proof.
  intros Hread H2 H0. unfold handleConnection_buffer.
  erewrite bind_Ok by (unfold lift; by rewrite Hread).
  apply Z.eqb_neq in H2, H0. by rewrite H2, H0.
Qed.

(** X9. A RESPONSE_VALUE frame from the client is echoed: the buffer just
    read is written back byte for byte, trailing bytes included, and
    nothing else happens - no event, no change to the registry or to the
    unreplied lists. *)
Theorem read_loop_echoes_response_value (conn : Conn) (s : Server)
    (buffer : list byte) (message : Message) (t : Transport) :
  readResponse buffer = Ok message ->
  m_type message = SERVERDATA_RESPONSE_VALUE ->
  resources s !! rid conn = Some t -> closed t = false ->
  exists s' t',
    handleConnection_buffer conn buffer s = (Ok tt, s')
    /\ resources s' !! rid conn = Some t'
    /\ written t' = written t ++ [buffer]
    /\ closed t' = false
    /\ emitted s' = emitted s
    /\ unreplied s' = unreplied s
    /\ connections s' = connections s.
Proof.
  intros Hread Hty Ht Hopen. eexists _, _.
  split; [by eapply handleConnection_buffer_echo|].
  split; [simpl; apply lookup_insert_eq|]. done.
Qed.

(** X10. A frame whose type is neither 2 nor 0 - an AUTH frame sent again
    after the handshake, or any unknown type - is dropped by the read loop:
    the server's state is exactly what it was, and nothing is sent back. *)
Theorem read_loop_ignores_other_types (conn : Conn) (s : Server)
    (buffer : list byte) (message : Message) :
  readResponse buffer = Ok message ->
  m_type message <> SERVERDATA_EXECCOMMAND ->
  m_type message <> SERVERDATA_RESPONSE_VALUE ->
  handleConnection_buffer conn buffer s = (Ok tt, s).
Proof. apply handleConnection_buffer_other. Qed.

(** X11. [notifyUnreplied] called on the server object emits one
    "unreplied" event per pending request, connection by connection in the
    order the connections were registered and, within a connection, in the
    order the requests arrived; it changes nothing else, so a second call
    emits the same events again. *)
Theorem notifyUnreplied_reports_pending (s : Server) :
  let report :=
    flat_map (fun '(r, messages) => map (EvUnreplied r) messages) (unreplied s) in
  exists s1 s2,
    notifyUnreplied this_server s = (Ok tt, s1)
    /\ emitted s1 = emitted s ++ report
    /\ unreplied s1 = unreplied s
    /\ connections s1 = connections s
    /\ resources s1 = resources s
    /\ notifyUnreplied this_server s1 = (Ok tt, s2)
    /\ emitted s2 = emitted s ++ report ++ report.
Proof.
  intros report. eexists _, _.
  split.
  { unfold notifyUnreplied. erewrite bind_Ok by reflexivity.
    apply forOf_emit_entries. }
  do 4 (split; [done|]).
  split.
  { unfold notifyUnreplied. erewrite bind_Ok by reflexivity.
    apply forOf_emit_entries. }
  simpl. by rewrite <- app_assoc.
Qed.

End RegistryMore.

Section HandshakeMore.
Import Buffer.
Variable rnd : Z.

(** The state a successful handshake leaves, from the state [s1] after the
    first read. *)
Lemma handleConnection_auth_Ok_true (conn : Conn) (s s' : Server) :
  handleConnection_auth rnd conn s = (Ok true, s') ->
  exists msg s1 t t1,
    firstFrame conn s = Ok msg
    /\ m_type msg = SERVERDATA_AUTH
    /\ m_body msg = password s
    /\ resources s !! rid conn = Some t /\ closed t = false
    /\ closed t1 = false /\ written t1 = written t
    /\ s1 = set_resources (<[rid conn := t1]>) s
    /\ s' = set_unreplied (JsMap.set (rid conn) [])
              (set_connections (<[rid conn := conn]>)
                 (set_emitted (fun l => l ++ [EvConnection (rid conn)])
                    (set_resources
                       (<[rid conn :=
                            transport_write
                              (frame (m_id msg) SERVERDATA_AUTH_RESPONSE [])
                              (transport_write
                                 (frame (m_id msg) SERVERDATA_RESPONSE_VALUE []) t1)]>)
                       (set_resources
                          (<[rid conn :=
                               transport_write
                                 (frame (m_id msg) SERVERDATA_RESPONSE_VALUE []) t1]>)
                          s1)))).
Proof.
  intros H.
  destruct (conn_read conn
              (alloc (4 + 4 + 4 + byteLength (password s) + 2)) s)
    as [[r|e] s1] eqn:Hread; cycle 1.
  { unfold handleConnection_auth in H.
    erewrite bind_Ok in H by (unfold gets; reflexivity). cbv beta zeta in H.
    erewrite bind_Throw in H by exact Hread. done. }
  destruct (conn_read_Ok _ _ _ _ _ Hread)
    as (t & t1 & Ht & Hopen & Hopen1 & Hw & Hs1 & _).
  destruct (readResponse (fst r)) as [msg|e] eqn:Hmsg; cycle 1.
  { unfold handleConnection_auth in H.
    erewrite bind_Ok in H by (unfold gets; reflexivity). cbv beta zeta in H.
    erewrite bind_Ok in H by exact Hread. cbv beta zeta in H.
    erewrite bind_Throw in H by (unfold lift; by rewrite Hmsg). done. }
  destruct (decide (m_type msg = SERVERDATA_AUTH)) as [Hty|Hty]; cycle 1.
  { by rewrite (handleConnection_auth_wrong_type rnd conn s s1 r msg t1) in H. }
  destruct (decide (m_body msg = password s)) as [Hbody|Hbody]; cycle 1.
  { by rewrite (handleConnection_auth_wrong_password rnd conn s s1 r msg t1) in H. }
  rewrite (handleConnection_auth_right_password rnd conn s s1 r msg t1) in H by done.
  injection H as <-.
  exists msg, s1, t, t1. unfold firstFrame. rewrite Hread. done.
Qed.

Lemma handleConnection_auth_Ok_true_registered (conn : Conn) (s s' : Server) :
  handleConnection_auth rnd conn s = (Ok true, s') ->
  connections s' !! rid conn = Some conn
  /\ JsMap.get (rid conn) (unreplied s') = Some []
  /\ exists t', resources s' !! rid conn = Some t' /\ closed t' = false.
Proof.
  intros (msg & s1 & t & t1 & _ & _ & _ & _ & _ & Hopen1 & _ & _ & ->)
    %handleConnection_auth_Ok_true.
  split; [simpl; apply lookup_insert_eq|].
  split; [simpl; apply JsMap_get_set_eq|].
  eexists. split; [simpl; apply lookup_insert_eq|done].
Qed.

(** X12. The handshake can only succeed against a password made of 7-bit
    characters: the submitted body is decoded with the "ascii" decoder,
    which masks every byte to 7 bits, and compared with [!==].  A server
    whose password holds any other character accepts nobody. *)
Theorem handshake_needs_7bit_password (conn : Conn) (s s' : Server) :
  handleConnection_auth rnd conn s = (Ok true, s') ->
  Forall (fun c => 0 <= c < 128) (password s).
Proof.
  intros (msg & s1 & t & t1 & Hfirst & _ & <- & _)%handleConnection_auth_Ok_true.
  unfold firstFrame in Hfirst.
  destruct (conn_read conn _ s) as [[r|e] s0]; [|done].
  rewrite (readResponse_body _ _ Hfirst). apply toString_ascii_7bit.
Qed.

Lemma conn_read_chunk (conn : Conn) (p : list byte) (s : Server)
    (t : Transport) (chunk : list byte) (rest : list (list byte)) :
  resources s !! rid conn = Some t -> closed t = false ->
  incoming t = chunk :: rest ->
  (length chunk <= length p)%nat ->
  conn_read conn p s
  = (Ok (chunk ++ drop (length chunk) p, Some (length chunk)),
     set_resources (<[rid conn := transport_take rest t]>) s).
Proof.
  intros Ht Hopen Hin Hlen. unfold conn_read. rewrite Ht, Hopen, Hin.
  rewrite Nat.min_l by done.
  destruct (Nat.ltb_spec (length p) (length chunk)); [lia|].
  by rewrite firstn_all.
Qed.

(** X13. A client that knows the password gets in: when the password is
    ASCII and the first chunk is the AUTH frame carrying it, as
    [writeMessage] encodes it for any int32 id, the handshake succeeds, the
    two acknowledgement frames are written, nothing else, and the
    connection is registered with an empty unreplied list. *)
Theorem handshake_accepts_encoded_password (conn : Conn) (s : Server)
    (t : Transport) (i : Z) (chunk : list byte) (rest : list (list byte)) :
  resources s !! rid conn = Some t -> closed t = false ->
  int32 i -> jsstring_ok (password s) ->
  Forall (fun c => isAscii c = true) (password s) ->
  writeMessage rnd {| bm_id := Some i; bm_type := SERVERDATA_AUTH;
                      bm_body := password s |} = Ok chunk ->
  incoming t = chunk :: rest ->
  exists ack accept s' t',
    writeMessage rnd {| bm_id := Some i; bm_type := SERVERDATA_RESPONSE_VALUE;
                        bm_body := [] |} = Ok ack
    /\ writeMessage rnd {| bm_id := Some i; bm_type := SERVERDATA_AUTH_RESPONSE;
                           bm_body := [] |} = Ok accept
    /\ handleConnection_auth rnd conn s = (Ok true, s')
    /\ registered s' conn
    /\ JsMap.get (rid conn) (unreplied s') = Some []
    /\ resources s' !! rid conn = Some t'
    /\ incoming t' = rest
    /\ written t' = written t ++ [ack; accept]
    /\ emitted s' = emitted s ++ [EvConnection (rid conn)].
Proof.
  intros Ht Hopen Hi Hok Hascii Hchunk Hin.
  rewrite (writeMessage_frame rnd
             {| bm_id := Some i; bm_type := SERVERDATA_AUTH;
                bm_body := password s |}) in Hchunk;
    [|done|apply (MessageType_int32 SERVERDATA_AUTH)|done].
  injection Hchunk as <-. cbn [message_id bm_id bm_type bm_body] in Hin.
  set (chunk := frame i SERVERDATA_AUTH (password s)) in *.
  set (authBuf := alloc (4 + 4 + 4 + byteLength (password s) + 2)).
  assert (length chunk = length authBuf) as Hlen.
  { pose proof (frame_length i SERVERDATA_AUTH (password s)) as Hl.
    pose proof (byteLength_bounds (password s)).
    unfold authBuf, alloc. rewrite length_replicate. fold chunk in Hl. lia. }
  pose proof (conn_read_chunk conn authBuf s t chunk rest Ht Hopen Hin
                ltac:(lia)) as Hread.
  rewrite Hlen, drop_all, app_nil_r, <- Hlen in Hread.
  pose proof (readResponse_frame i SERVERDATA_AUTH (password s) Hi
                (MessageType_int32 SERVERDATA_AUTH) Hok Hascii) as Hmsg.
  fold chunk in Hmsg.
  pose proof (handleConnection_auth_right_password rnd conn s _ _ _
                (transport_take rest t) Hread Hmsg eq_refl Hopen
                eq_refl eq_refl) as Hauth.
  exists (frame i SERVERDATA_RESPONSE_VALUE []),
         (frame i SERVERDATA_AUTH_RESPONSE []).
  eexists _, _.
  split; [by apply (writeMessage_empty rnd i SERVERDATA_RESPONSE_VALUE)|].
  split; [by apply (writeMessage_empty rnd i SERVERDATA_AUTH_RESPONSE)|].
  split; [exact Hauth|].
  split.
  { split; [simpl; apply lookup_insert_eq|].
    split; [simpl; rewrite JsMap_get_set_eq; eauto|].
    eexists. split; [simpl; apply lookup_insert_eq|done]. }
  split; [simpl; apply JsMap_get_set_eq|].
  split; [simpl; apply lookup_insert_eq|].
  split; [done|].
  split; [simpl; by rewrite <- app_assoc|].
  done.
Qed.

End HandshakeMore.

Section ReadLoop.
Import Buffer.
Variable rnd : Z.

Lemma readResponse_Ok_from_12 (buffer : list byte) :
  (12 <= length buffer)%nat -> exists message, readResponse buffer = Ok message.
Proof.
  intros Hlen. unfold readResponse.
  destruct (readInt32LE_Ok buffer 0) as [size ->]; [lia..|].
  destruct (readInt32LE_Ok buffer 4) as [id ->]; [lia..|].
  destruct (readInt32LE_Ok buffer 8) as [type ->]; [lia..|].
  simpl. eauto.
Qed.

Lemma readResponse_Throw_below_12 (buffer : list byte) :
  (length buffer < 12)%nat -> readResponse buffer = Throw ERR_OUT_OF_RANGE.
Proof.
  intros Hlen. unfold readResponse.
  destruct (Z.lt_ge_cases (Z.of_nat (length buffer)) 4).
  { by rewrite (readInt32LE_Throw buffer 0) by lia. }
  destruct (readInt32LE_Ok buffer 0) as [size ->]; [lia..|]. cbn [rbind].
  destruct (Z.lt_ge_cases (Z.of_nat (length buffer)) 8).
  { by rewrite (readInt32LE_Throw buffer 4) by lia. }
  destruct (readInt32LE_Ok buffer 4) as [id ->]; [lia..|]. cbn [rbind].
  by rewrite (readInt32LE_Throw buffer 8) by lia.
Qed.

Lemma handleConnection_loop_chunk (fuel : nat) (conn : Conn) (b : list byte)
    (s : Server) (t : Transport) (chunk : list byte) (rest : list (list byte)) :
  resources s !! rid conn = Some t -> closed t = false ->
  incoming t = chunk :: rest ->
  (length chunk <= length b)%nat ->
  handleConnection_loop (S fuel) conn b s
  = bind (handleConnection_buffer conn chunk)
      (fun _ => handleConnection_loop fuel conn (chunk ++ drop (length chunk) b))
      (set_resources (<[rid conn := transport_take rest t]>) s).
Proof.
  intros Ht Hopen Hin Hlen. cbn [handleConnection_loop].
  erewrite bind_Ok by (by apply conn_read_chunk).
  cbn [fst snd]. by rewrite take_app_length.
Qed.

Lemma handleConnection_loop_eof (fuel : nat) (conn : Conn) (b : list byte)
    (s : Server) (t : Transport) :
  resources s !! rid conn = Some t -> closed t = false ->
  incoming t = [] ->
  handleConnection_loop (S fuel) conn b s = (Ok true, s).
Proof.
  intros Ht Hopen Hin. cbn [handleConnection_loop].
  erewrite bind_Ok by (unfold conn_read; by rewrite Ht, Hopen, Hin).
  reflexivity.
Qed.

Lemma handleConnection_loop_in_order (conn : Conn) (chunks : list (list byte)) :
  forall (fuel : nat) (b : list byte) (s : Server) (t : Transport)
         (pending : list Message),
    resources s !! rid conn = Some t -> closed t = false ->
    incoming t = chunks ->
    JsMap.get (rid conn) (unreplied s) = Some pending ->
    Forall (fun chunk => (12 <= length chunk <= length b)%nat) chunks ->
    (length chunks < fuel)%nat ->
    exists s' t',
      handleConnection_loop fuel conn b s = (Ok true, s')
      /\ resources s' !! rid conn = Some t'
      /\ incoming t' = [] /\ closed t' = false
      /\ written t' = written t ++ echoes chunks
      /\ JsMap.get (rid conn) (unreplied s') = Some (pending ++ requests chunks)
      /\ emitted s' = emitted s ++ map (EvRequest (rid conn)) (requests chunks)
      /\ connections s' = connections s
      /\ password s' = password s.
Proof.
  induction chunks as [|chunk rest IH];
    intros fuel b s t pending Ht Hopen Hin Hpending Hall Hfuel;
    (destruct fuel as [|fuel]; [simpl in Hfuel; lia|]).
  - exists s, t. rewrite (handleConnection_loop_eof fuel conn b s t) by done.
    simpl. by rewrite !app_nil_r.
  - apply Forall_cons in Hall as [[Hlo Hhi] Hall].
    rewrite (handleConnection_loop_chunk fuel conn b s t chunk rest) by done.
    set (s1 := set_resources (<[rid conn := transport_take rest t]>) s).
    set (b1 := chunk ++ drop (length chunk) b).
    assert (length b1 = length b) as Hb1.
    { unfold b1. rewrite length_app, length_drop. lia. }
    rewrite <- Hb1 in Hall.
    destruct (readResponse_Ok_from_12 chunk Hlo) as [message Hmsg].
    simpl in Hfuel. cbn [requests echoes]. rewrite Hmsg.
    destruct (Z.eqb_spec (m_type message) SERVERDATA_EXECCOMMAND) as [H2|H2].
    + erewrite bind_Ok
        by (by apply (handleConnection_buffer_request conn s1 chunk message pending)).
      match goal with
      | |- context [handleConnection_loop fuel conn b1 ?st] =>
          destruct (IH fuel b1 st (transport_take rest t) (pending ++ [message]))
            as (s' & t' & Hloop & Ht' & Hin' & Hopen' & Hw & Hp & He & Hc & Hpw);
            [simpl; apply lookup_insert_eq|done|done
            |simpl; apply JsMap_get_set_eq|done|lia|]
      end.
      exists s', t'. rewrite Hloop.
      split; [done|]. split; [done|]. split; [done|]. split; [done|].
      split; [done|].
      split; [by rewrite Hp, <- app_assoc|].
      split; [rewrite He; simpl; by rewrite <- app_assoc|].
      done.
    + destruct (Z.eqb_spec (m_type message) SERVERDATA_RESPONSE_VALUE) as [H0|H0].
      * erewrite bind_Ok
          by (eapply (handleConnection_buffer_echo conn s1 chunk message);
              [done|done|simpl; apply lookup_insert_eq|done]).
        match goal with
        | |- context [handleConnection_loop fuel conn b1 ?st] =>
            destruct (IH fuel b1 st
                        (transport_write chunk (transport_take rest t)) pending)
              as (s' & t' & Hloop & Ht' & Hin' & Hopen' & Hw & Hp & He & Hc & Hpw);
              [simpl; apply lookup_insert_eq|done|done|done|done|lia|]
        end.
        exists s', t'. rewrite Hloop.
        split; [done|]. split; [done|]. split; [done|]. split; [done|].
        split; [rewrite Hw; simpl; by rewrite <- app_assoc|].
        done.
      * erewrite bind_Ok
          by (by apply (handleConnection_buffer_other conn s1 chunk message)).
        destruct (IH fuel b1 s1 (transport_take rest t) pending)
          as (s' & t' & Hloop & Ht' & Hin' & Hopen' & Hw & Hp & He & Hc & Hpw);
          [simpl; apply lookup_insert_eq|done|done|done|done|lia|].
        exists s', t'. by rewrite Hloop.
Qed.

(** X14. The read loop handles the chunks of a connection strictly in the
    order they arrive and runs to the end of the stream: given as many
    turns as there are chunks plus one, with every chunk at least 12 bytes
    long and no longer than the scratch buffer, it returns after the last
    one, having appended the EXECCOMMAND messages to the connection's
    unreplied list and emitted their "request" events in arrival order, and
    having written back the RESPONSE_VALUE chunks in arrival order. *)
Theorem read_loop_in_arrival_order (conn : Conn) (chunks : list (list byte))
    (fuel : nat) (b : list byte) (s : Server) (t : Transport)
    (pending : list Message) :
  resources s !! rid conn = Some t -> closed t = false ->
  incoming t = chunks ->
  JsMap.get (rid conn) (unreplied s) = Some pending ->
  Forall (fun chunk => (12 <= length chunk <= length b)%nat) chunks ->
  (length chunks < fuel)%nat ->
  exists s' t',
    handleConnection_loop fuel conn b s = (Ok true, s')
    /\ resources s' !! rid conn = Some t'
    /\ incoming t' = [] /\ closed t' = false
    /\ written t' = written t ++ echoes chunks
    /\ JsMap.get (rid conn) (unreplied s') = Some (pending ++ requests chunks)
    /\ emitted s' = emitted s ++ map (EvRequest (rid conn)) (requests chunks)
    /\ connections s' = connections s.
Proof.
  intros Ht Hopen Hin Hpending Hall Hfuel.
  destruct (handleConnection_loop_in_order conn chunks fuel b s t pending)
    as (s' & t' & ? & ? & ? & ? & ? & ? & ? & ? & _); try done.
  by exists s', t'.
Qed.

(** X15. A whole session: after a successful handshake, when the peer
    sends chunks of at least 12 and at most [DEFAULT_BUFFER_SIZE] bytes and
    then closes, [handleConnection] returns having torn the connection
    down: the transport is closed, the connection is out of the registry and
    of the unreplied map (requests still pending are dropped), and the
    events after "connection" are the "request" events in arrival order
    followed by one "close". *)
Theorem handleConnection_session (conn : Conn) (s s1 : Server)
    (t1 : Transport) (fuel : nat) :
  consistent s ->
  handleConnection_auth rnd conn s = (Ok true, s1) ->
  resources s1 !! rid conn = Some t1 ->
  Forall (fun chunk => 12 <= Z.of_nat (length chunk) <= DEFAULT_BUFFER_SIZE)
         (incoming t1) ->
  (length (incoming t1) < fuel)%nat ->
  exists s2 t2,
    handleConnection rnd fuel conn s = (Ok tt, s2)
    /\ connections s2 !! rid conn = None
    /\ JsMap.get (rid conn) (unreplied s2) = None
    /\ resources s2 !! rid conn = Some t2
    /\ closed t2 = true
    /\ written t2 = written t1 ++ echoes (incoming t1)
    /\ emitted s2
       = emitted s1 ++ map (EvRequest (rid conn)) (requests (incoming t1))
           ++ [EvClose (rid conn)].
Proof.
  intros Hcons Hauth Ht1 Hall Hfuel.
  pose proof (keeps_auth consistent consistent_same consistent_register
                rnd conn s Hcons) as Hcons1.
  rewrite Hauth in Hcons1. cbn [snd] in Hcons1.
  destruct (handleConnection_auth_Ok_true_registered rnd conn s s1 Hauth)
    as (Hconn & Hpending & t1' & Ht1' & Hopen1).
  rewrite Ht1 in Ht1'. injection Ht1' as <-.
  destruct (handleConnection_loop_in_order conn (incoming t1) fuel
              (alloc DEFAULT_BUFFER_SIZE) s1 t1 [])
    as (s' & t' & Hloop & Ht' & Hin' & Hopen' & Hw & Hp & He & Hc & _);
    try done.
  { eapply Forall_impl; [exact Hall|]. intros chunk [Hlo Hhi]. cbv beta.
    unfold alloc. rewrite length_replicate. lia. }
  assert (consistent s') as Hcons'.
  { pose proof (keeps_loop consistent consistent_same consistent_update
                  fuel conn (alloc DEFAULT_BUFFER_SIZE) s1 Hcons1) as H.
    by rewrite Hloop in H. }
  eexists _, _. split.
  { unfold handleConnection. erewrite bind_Ok by exact Hauth.
    unfold try_catch. erewrite bind_Ok by exact Hloop. cbv beta iota.
    rewrite (closeConnection_registered (rid conn) conn s' t')
      by (by rewrite ?Hc).
    reflexivity. }
  split; [simpl; apply lookup_delete_eq|].
  split; [simpl; apply JsMap_get_delete_eq, Hcons'|].
  split; [simpl; apply lookup_insert_eq|].
  split; [done|].
  split; [done|].
  simpl. by rewrite He, <- app_assoc.
Qed.

(** X16. A chunk shorter than 12 bytes ends the read loop without a
    teardown: [readResponse] raises a [RangeError], the [catch] only acts on
    [BadResource], so [handleConnection] returns with the connection still
    registered, its transport open, the remaining chunks unread and no
    "close" event emitted. *)
Theorem handleConnection_short_chunk_leaks (conn : Conn) (s s1 : Server)
    (t1 : Transport) (chunk : list byte) (rest : list (list byte)) (fuel : nat) :
  handleConnection_auth rnd conn s = (Ok true, s1) ->
  resources s1 !! rid conn = Some t1 ->
  incoming t1 = chunk :: rest ->
  (length chunk < 12)%nat ->
  exists s2 t2,
    handleConnection rnd (S fuel) conn s = (Ok tt, s2)
    /\ connections s2 !! rid conn = Some conn
    /\ resources s2 !! rid conn = Some t2
    /\ closed t2 = false
    /\ incoming t2 = rest
    /\ written t2 = written t1
    /\ emitted s2 = emitted s1
    /\ unreplied s2 = unreplied s1.
Proof.
  intros Hauth Ht1 Hin Hshort.
  destruct (handleConnection_auth_Ok_true_registered rnd conn s s1 Hauth)
    as (Hconn & Hpending & t1' & Ht1' & Hopen1).
  rewrite Ht1 in Ht1'. injection Ht1' as <-.
  eexists _, _. split.
  { unfold handleConnection. erewrite bind_Ok by exact Hauth. cbv beta iota.
    unfold try_catch.
    erewrite (bind_Throw _ _ s1 _ ERR_OUT_OF_RANGE); [reflexivity|].
    rewrite (handleConnection_loop_chunk fuel conn _ s1 t1 chunk rest);
      [|done|done|done|].
    - apply bind_Throw.
      unfold handleConnection_buffer. apply bind_Throw.
      unfold lift. by rewrite readResponse_Throw_below_12.
    - unfold alloc, DEFAULT_BUFFER_SIZE. rewrite length_replicate. lia. }
  split; [done|].
  split; [simpl; apply lookup_insert_eq|].
  done.
Qed.

End ReadLoop.

Section HandshakeEdge.
Import Buffer.
Variable rnd : Z.

Lemma zero_tail_get (chunk : list byte) (n : nat) (i : Z) :
  Z.of_nat (length chunk) <= i < Z.of_nat n ->
  get (chunk ++ drop (length chunk) (replicate n x00)) i = Some x00.
Proof.
  intros Hi. unfold get. destruct (Z.ltb_spec i 0); [lia|].
  rewrite lookup_app_r by lia. rewrite lookup_drop.
  apply lookup_replicate. split; [done|lia].
Qed.

Lemma readResponse_zero_type (chunk : list byte) (n : nat) :
  (length chunk <= 8)%nat -> (12 <= n)%nat ->
  exists message,
    readResponse (chunk ++ drop (length chunk) (replicate n x00)) = Ok message
    /\ m_type message = 0.
Proof.
  intros Hshort Hn.
  set (buffer := chunk ++ drop (length chunk) (replicate n x00)).
  assert (length buffer = n) as Hlen.
  { unfold buffer. rewrite length_app, length_drop, length_replicate. lia. }
  unfold readResponse.
  destruct (readInt32LE_Ok buffer 0) as [size ->]; [lia..|].
  destruct (readInt32LE_Ok buffer 4) as [id ->]; [lia..|].
  cbn [rbind]. unfold readInt32LE, buffer.
  rewrite !zero_tail_get by lia. cbn [rbind default].
  eexists. split; [reflexivity|]. reflexivity.
Qed.

(** X17. A peer whose first delivery is at most 8 bytes long - or that
    closes without sending anything - is turned away in silence: the type
    field of the zero-filled handshake buffer reads 0, so the transport is
    closed with nothing written, no event and no registration. *)
Theorem handshake_rejects_short_first_read (fuel : nat) (conn : Conn)
    (s : Server) (t : Transport) :
  resources s !! rid conn = Some t -> closed t = false ->
  match incoming t with
  | [] => True
  | chunk :: _ => (length chunk <= 8)%nat
  end ->
  exists s' t',
    handleConnection rnd fuel conn s = (Ok tt, s')
    /\ resources s' !! rid conn = Some t'
    /\ closed t' = true
    /\ written t' = written t
    /\ emitted s' = emitted s
    /\ connections s' = connections s
    /\ unreplied s' = unreplied s.
Proof.
  intros Ht Hopen Hin.
  set (L := Z.to_nat (4 + 4 + 4 + byteLength (password s) + 2)).
  assert (12 <= L)%nat as HL.
  { pose proof (byteLength_bounds (password s)). unfold L. lia. }
  assert (exists r s1 t1 message,
            conn_read conn (alloc (4 + 4 + 4 + byteLength (password s) + 2)) s
            = (Ok r, s1)
            /\ readResponse (fst r) = Ok message /\ m_type message = 0
            /\ s1 = set_resources (<[rid conn := t1]>) s
            /\ closed t1 = false /\ written t1 = written t)
    as (r & s1 & t1 & message & Hread & Hmsg & Hty & Hs1 & Hopen1 & Hw).
  { destruct (incoming t) as [|chunk rest] eqn:Hchunks.
    - destruct (readResponse_zero_type [] L ltac:(simpl; lia) HL)
        as (message & Hmsg & Hty).
      eexists (_, None), s, t, message. split.
      { unfold conn_read. by rewrite Ht, Hopen, Hchunks. }
      split; [exact Hmsg|]. split; [done|].
      split; [by rewrite set_resources_insert_id|done].
    - destruct (readResponse_zero_type chunk L Hin HL)
        as (message & Hmsg & Hty).
      eexists _, _, (transport_take rest t), message. split.
      { apply conn_read_chunk with (t := t); try done.
        unfold alloc. rewrite length_replicate. fold L. lia. }
      split; [exact Hmsg|]. done. }
  pose proof (handleConnection_auth_wrong_type rnd conn s s1 r message t1
                Hread Hmsg Hs1 Hopen1) as Hauth.
  rewrite Hty in Hauth. specialize (Hauth ltac:(discriminate)).
  eexists _, _. split.
  { unfold handleConnection. erewrite bind_Ok by exact Hauth. reflexivity. }
  split; [simpl; apply lookup_insert_eq|].
  split; [done|]. split; [done|].
  by rewrite Hs1.
Qed.

(** X18. [reply] does not look at whether the request is still pending: a
    second [reply] with the same id on a registered connection succeeds
    again and puts a second copy of the frame on the wire, the unreplied
    map staying as the first call left it. *)
Theorem reply_twice_writes_twice (conn : Conn) (s : Server)
    (reqId : Z) (body : jsstring) :
  registered s conn ->
  int32 reqId -> jsstring_ok body ->
  exists response t s1 s2 t2,
    writeMessage rnd {| bm_id := Some reqId;
                        bm_type := SERVERDATA_RESPONSE_VALUE;
                        bm_body := body |} = Ok response
    /\ resources s !! rid conn = Some t
    /\ reply rnd (rid conn) reqId body s = (Ok tt, s1)
    /\ reply rnd (rid conn) reqId body s1 = (Ok tt, s2)
    /\ resources s2 !! rid conn = Some t2
    /\ written t2 = written t ++ [response; response]
    /\ unreplied s2 = unreplied s1.
Proof.
  intros (Hconn & [pending Hpending] & t & Ht & Hopen) Hid Hok.
  pose proof (reply_registered rnd conn s reqId body pending t
                Hconn Hpending Ht Hopen Hid Hok) as H1.
  set (pending1 := filter (fun m => m_id m <> reqId) pending) in *.
  set (response := frame reqId SERVERDATA_RESPONSE_VALUE body) in *.
  match type of H1 with
  | _ = (_, ?st) =>
      pose proof (reply_registered rnd conn st reqId body pending1
                    (transport_write response t)
                    Hconn (JsMap_get_set_eq _ _ _)
                    (lookup_insert_eq _ _ _) Hopen Hid Hok) as H2
  end.
  eexists response, t, _, _, _.
  split.
  { apply (writeMessage_frame rnd
             {| bm_id := Some reqId;
                bm_type := SERVERDATA_RESPONSE_VALUE; bm_body := body |});
      [done|apply (MessageType_int32 SERVERDATA_RESPONSE_VALUE)|done]. }
  split; [exact Ht|].
  split; [exact H1|].
  split; [exact H2|].
  split; [simpl; apply lookup_insert_eq|].
  split; [simpl; by rewrite <- app_assoc|].
  simpl.
  rewrite (filter_unmatched_id reqId pending1) by apply filter_removes_id.
  apply JsMap_set_same, JsMap_get_set_eq.
Qed.

Ltac fin := repeat split; by (intros; simplify_eq).

Ltac run_both :=
  repeat match goal with
         | |- context [match ?x with _ => _ end] =>
             lazymatch x with
             | context [match _ with _ => _ end] => fail
             | _ => destruct x eqn:?; simpl
             end
         end.

(** X19. [handleConnection] of [src/index.ts] drives the transport exactly
    as the current handshake does - the same reads, writes and close, the
    same exception if any - but registers nothing: registry, unreplied map
    and event log are left as they were. *)
Theorem index_handleConnection_agrees (conn : Conn) (s : Server) :
  let old := Index.handleConnection rnd conn s in
  let new := handleConnection_auth rnd conn s in
  resources (snd old) = resources (snd new)
  /\ (forall e, fst old = Throw e <-> fst new = Throw e)
  /\ connections (snd old) = connections s
  /\ unreplied (snd old) = unreplied s
  /\ emitted (snd old) = emitted s.
Proof.
  unfold Index.handleConnection, handleConnection_auth.
  unfold bind, gets, lift, ret, modify, emit, conn_read, conn_write, conn_close.
  simpl. run_both; fin.
Qed.

(** X20. [reply] and [closeConnection] of the version without the
    unreplied map return or throw as the current ones do and leave the
    same registry, transports and event log; they never touch the
    unreplied map. *)
Theorem draft_reply_closeConnection_agree (s : Server) (r : Z) :
  (forall reqId body,
     let old := Draft.reply rnd r reqId body s in
     let new := reply rnd r reqId body s in
     fst old = fst new
     /\ connections (snd old) = connections (snd new)
     /\ resources (snd old) = resources (snd new)
     /\ emitted (snd old) = emitted (snd new)
     /\ unreplied (snd old) = unreplied s)
  /\ (let old := Draft.closeConnection r s in
      let new := closeConnection r s in
      fst old = fst new
      /\ connections (snd old) = connections (snd new)
      /\ resources (snd old) = resources (snd new)
      /\ emitted (snd old) = emitted (snd new)
      /\ unreplied (snd old) = unreplied s).
Proof.
  split.
  - intros reqId body.
    unfold Draft.reply, reply, bind, gets, lift, throw, ret, modify, conn_write.
    simpl. run_both; fin.
  - unfold Draft.closeConnection, closeConnection, bind, gets, ret, modify,
      emit, conn_close.
    simpl. run_both; fin.
Qed.

End HandshakeEdge.

Section MoreWitnesses.
Import Example Session.

Lemma serving_consistent (pending : list Message) : consistent (serving pending).
Proof.
  split.
  - simpl. apply NoDup_singleton.
  - intros r. cbn [serving connections unreplied JsMap.get].
    destruct (Z.eqb_spec 7 r) as [<-|Hne].
    + rewrite lookup_singleton_eq. split; eauto.
    + rewrite lookup_singleton_ne by done. split; intros [? ?]; done.
Qed.

Lemma serving_registered (pending : list Message) :
  registered (serving pending) client.
Proof. split; [reflexivity|]. split; [by eexists|]. by eexists. Qed.

Lemma fresh_consistent (chunks : list (list byte)) : consistent (fresh chunks).
Proof.
  split.
  - simpl. apply NoDup_nil_2.
  - intros r. cbn [fresh connections unreplied JsMap.get].
    rewrite lookup_empty. split; intros [? ?]; done.
Qed.

(** X1, with the body "é". *)
Lemma writeMessage_readResponse_any_body_witness :
  exists buffer,
    writeMessage 0 {| bm_id := Some 42; bm_type := SERVERDATA_RESPONSE_VALUE;
                      bm_body := [233] |} = Ok buffer
    /\ readResponse buffer
       = Ok {| m_id := 42; m_type := 0; m_body := [105; 0]; m_size := 12 |}.
Proof.
  apply (writeMessage_readResponse_any_body 0 42 SERVERDATA_RESPONSE_VALUE [233]).
  - unfold int32. lia.
  - apply jsstring_ok_short. simpl. lia.
Defined.

(** X2, on the login frame. *)
Lemma readResponse_fields_witness :
  Forall (fun c => 0 <= c < 128) secret /\ length secret = 6%nat.
Proof.
  destruct (readResponse_fields login
              {| m_id := 5; m_type := 3; m_body := secret; m_size := 16 |}
              eq_refl)
    as (_ & _ & _ & H7 & Hlen & _).
  split; [exact H7|exact Hlen].
Defined.

(** X3, with a second command right behind the first. *)
Lemma readResponse_ignores_trailing_bytes_witness :
  readResponse (command ++ frame 44 SERVERDATA_EXECCOMMAND ok) = Ok (request 42).
Proof.
  apply readResponse_ignores_trailing_bytes; [reflexivity|].
  vm_compute. discriminate.
Defined.

(** X4, with type 3 and a null id for which 7 is generated. *)
Lemma writeMessage_succeeds_iff_witness :
  exists buffer,
    writeMessage 7 {| bm_id := None; bm_type := 3; bm_body := secret |} = Ok buffer.
Proof.
  apply (proj1 (writeMessage_succeeds_iff 7
                  {| bm_id := None; bm_type := 3; bm_body := secret |}
                  ltac:(apply jsstring_ok_short; simpl; lia))).
  split; unfold int32; vm_compute; split; discriminate.
Defined.

(** X5, from the serving example. *)
Lemma registry_stays_consistent_witness :
  consistent (snd (closeConnection 7 (serving [request 42])))
  /\ consistent (snd (reply 0 7 42 ok (serving [request 42]))).
Proof.
  destruct (registry_stays_consistent 0 (serving [request 42])
              (serving_consistent _)) as (_ & Hclose & Hreply & _).
  split; [apply Hclose|apply Hreply].
Defined.

(** X6, from the serving example. *)
Lemma closeConnection_tears_down_witness :
  exists s',
    closeConnection 7 (serving [request 42]) = (Ok tt, s')
    /\ connections s' !! 7 = None
    /\ JsMap.get 7 (unreplied s') = None.
Proof.
  destruct (closeConnection_tears_down client (serving [request 42])
              (serving_registered _) (serving_consistent _))
    as (s' & t & t' & H & Hc & Hu & _).
  by exists s'.
Defined.

(** X7, from the serving example. *)
Lemma closeConnection_then_unknown_witness :
  let s1 := snd (closeConnection 7 (serving [])) in
  closeConnection 7 s1 = (Ok tt, s1)
  /\ reply 0 7 42 ok s1 = (Throw ERR_CONNECTION_NOT_FOUND, s1).
Proof.
  intros s1.
  destruct (closeConnection_then_unknown 0 7 (serving []) s1 eq_refl) as [H1 H2].
  split; [exact H1|apply H2].
Defined.

Lemma serving_keyed_by_rid (pending : list Message) : keyed_by_rid (serving pending).
Proof.
  intros r c. cbn [serving connections].
  intros [<- <-]%lookup_singleton_Some. reflexivity.
Qed.

(** X8, with connection 8 next to the registered 7. *)
Lemma other_connections_untouched_witness :
  resources (snd (reply 0 7 42 ok (serving [request 42]))) !! 8
  = resources (serving [request 42]) !! 8.
Proof.
  destruct (other_connections_untouched 0 (serving [request 42]) 7 8
              (serving_keyed_by_rid _) ltac:(discriminate)) as [Hreply _].
  apply (Hreply 42 ok).
Defined.

(** X9, with the probe frame. *)
Lemma read_loop_echoes_response_value_witness :
  exists s' t',
    handleConnection_buffer client probe (serving []) = (Ok tt, s')
    /\ resources s' !! 7 = Some t'
    /\ written t' = [probe].
Proof.
  destruct (read_loop_echoes_response_value client (serving []) probe
              {| m_id := 43; m_type := 0; m_body := []; m_size := 10 |}
              {| incoming := []; written := []; closed := false |}
              eq_refl eq_refl eq_refl eq_refl)
    as (s' & t' & H & Ht & Hw & _).
  by exists s', t'.
Defined.

(** X10, with a second AUTH frame after the handshake. *)
Lemma read_loop_ignores_other_types_witness :
  handleConnection_buffer client login (serving []) = (Ok tt, serving []).
Proof.
  apply (read_loop_ignores_other_types client (serving []) login
           {| m_id := 5; m_type := 3; m_body := secret; m_size := 16 |});
    [reflexivity|discriminate|discriminate].
Defined.

(** X12, with the password "secret". *)
Lemma handshake_needs_7bit_password_witness :
  Forall (fun c => 0 <= c < 128) secret.
Proof.
  apply (handshake_needs_7bit_password 0 client (fresh [login])
           (snd (handleConnection_auth 0 client (fresh [login])))).
  reflexivity.
Defined.

(** X13, with the login frame followed by a command. *)
Lemma handshake_accepts_encoded_password_witness :
  exists s',
    handleConnection_auth 0 client (fresh [login; command]) = (Ok true, s')
    /\ registered s' client.
Proof.
  destruct (handshake_accepts_encoded_password 0 client (fresh [login; command])
              {| incoming := [login; command]; written := []; closed := false |}
              5 login [command])
    as (ack & accept & s' & t' & _ & _ & H & Hreg & _);
    try reflexivity.
  - unfold int32. lia.
  - apply jsstring_ok_short. simpl. lia.
  - repeat constructor.
  - by exists s'.
Defined.

(** X14, with a command followed by a probe. *)
Lemma read_loop_in_arrival_order_witness :
  exists s' t',
    handleConnection_loop 3 client (replicate 64 x00) (receiving [command; probe])
    = (Ok true, s')
    /\ resources s' !! 7 = Some t'
    /\ written t' = [probe]
    /\ JsMap.get 7 (unreplied s') = Some [request 42].
Proof.
  destruct (read_loop_in_arrival_order client [command; probe] 3
              (replicate 64 x00) (receiving [command; probe])
              {| incoming := [command; probe]; written := []; closed := false |}
              [])
    as (s' & t' & H & Ht & _ & _ & Hw & Hp & _);
    try reflexivity.
  - repeat constructor; vm_compute; lia.
  - simpl. lia.
  - by exists s', t'.
Defined.

(** X15, with the login, a command and a probe, then end of stream. *)
Lemma handleConnection_session_witness :
  exists s2,
    handleConnection 0 3 client (fresh [login; command; probe]) = (Ok tt, s2)
    /\ connections s2 !! 7 = None
    /\ emitted s2 = [EvConnection 7; EvRequest 7 (request 42); EvClose 7].
Proof.
  destruct (handleConnection_session 0 client (fresh [login; command; probe])
              (snd (handleConnection_auth 0 client (fresh [login; command; probe])))
              {| incoming := [command; probe];
                 written := [frame 5 SERVERDATA_RESPONSE_VALUE [];
                             frame 5 SERVERDATA_AUTH_RESPONSE []];
                 closed := false |}
              3)
    as (s2 & t2 & H & Hc & _ & _ & _ & _ & He).
  - apply fresh_consistent.
  - reflexivity.
  - reflexivity.
  - repeat constructor; vm_compute; discriminate.
  - simpl. lia.
  - by exists s2.
Defined.

(** X16, with three stray bytes after the login. *)
Lemma handleConnection_short_chunk_leaks_witness :
  exists s2,
    handleConnection 0 1 client (fresh [login; [x01; x02; x03]]) = (Ok tt, s2)
    /\ connections s2 !! 7 = Some client
    /\ emitted s2 = [EvConnection 7].
Proof.
  destruct (handleConnection_short_chunk_leaks 0 client
              (fresh [login; [x01; x02; x03]])
              (snd (handleConnection_auth 0 client (fresh [login; [x01; x02; x03]])))
              {| incoming := [[x01; x02; x03]];
                 written := [frame 5 SERVERDATA_RESPONSE_VALUE [];
                             frame 5 SERVERDATA_AUTH_RESPONSE []];
                 closed := false |}
              [x01; x02; x03] [] 0)
    as (s2 & t2 & H & Hc & _ & _ & _ & _ & He & _).
  - reflexivity.
  - reflexivity.
  - reflexivity.
  - simpl. lia.
  - by exists s2.
Defined.

(** X17, with a peer that sends three bytes. *)
Lemma handshake_rejects_short_first_read_witness :
  exists s',
    handleConnection 0 1 client (fresh [[x03; x00; x00]]) = (Ok tt, s')
    /\ emitted s' = [] /\ connections s' = ∅.
Proof.
  destruct (handshake_rejects_short_first_read 0 1 client (fresh [[x03; x00; x00]])
              {| incoming := [[x03; x00; x00]]; written := []; closed := false |}
              eq_refl eq_refl ltac:(simpl; lia))
    as (s' & t' & H & _ & _ & _ & He & Hc & _).
  by exists s'.
Defined.

(** X18, replying "ok" twice to request 42. *)
Lemma reply_twice_writes_twice_witness :
  exists s1 s2 t2,
    reply 0 7 42 ok (serving [request 42]) = (Ok tt, s1)
    /\ reply 0 7 42 ok s1 = (Ok tt, s2)
    /\ resources s2 !! 7 = Some t2
    /\ written t2 = [frame 42 SERVERDATA_RESPONSE_VALUE ok;
                     frame 42 SERVERDATA_RESPONSE_VALUE ok].
Proof.
  destruct (reply_twice_writes_twice 0 client (serving [request 42]) 42 ok
              (serving_registered _))
    as (response & t & s1 & s2 & t2 & Hr & Ht & H1 & H2 & Ht2 & Hw & _).
  - unfold int32. lia.
  - apply jsstring_ok_short. simpl. lia.
  - exists s1, s2, t2. repeat split; try done.
    rewrite Hw. injection Ht as <-. simpl.
    vm_compute in Hr. injection Hr as <-. reflexivity.
Defined.

(** X21, from the serving example. *)
Lemma registry_keys_are_rids_witness :
  keyed_by_rid (snd (handleConnection 0 3 client (serving [])))
  /\ keyed_by_rid (snd (closeConnection 7 (serving []))).
Proof.
  destruct (registry_keys_are_rids 0 (serving []) (serving_keyed_by_rid _))
    as (Hhandle & Hclose & _).
  split; [apply Hhandle|apply Hclose].
Defined.

End MoreWitnesses.
